(** * torchhydro: windowed-sample indexing, epoch sampling and scalers

    A shallow embedding of [torchhydro/datasets/data_sets.py] and
    [torchhydro/datasets/data_scalers.py].

    Conventions.
    - Python [int] is [Z]; Python lists and coordinate arrays are [list];
      a numeric array is its shape with an indexing function; the dict built
      by [dict(enumerate(...))] is a [gmap Z _].
    - A Python exception is a value [Raise e] of the [result] monad; the
      constructors of [exn] carry the names of the Python exception classes.
    - Timestamps ([np.datetime64]) are day ordinals in [Z], so that
      [t + np.timedelta64(k, "D")] is [t + k].
    - Floating-point payloads of arrays are kept abstract wherever the code
      only moves them around (slicing, transposing, tiling, concatenating). *)

From Stdlib Require Import ZArith Lia Reals Lra.
From stdpp Require Import base option list list_numbers gmap strings fin_maps.

Local Open Scope Z_scope.

(** ** Python exceptions as a result monad *)

Inductive exn : Set :=
  | IndexError
  | KeyError
  | ValueError
  | TypeError
  | ZeroDivisionError
  | OverflowError
  | AssertionError
  | AttributeError
  | FileNotFoundError
  | SameFileError
  | JSONDecodeError
  | NotImplementedError.

Inductive result (A : Type) : Type :=
  | Ok (a : A)
  | Raise (e : exn).
Arguments Ok {A} a.
Arguments Raise {A} e.

#[global] Instance result_ret : MRet result := fun A a => Ok a.
#[global] Instance result_bind : MBind result := fun A B f r =>
  match r with
  | Ok a => f a
  | Raise e => Raise e
  end.
#[global] Instance result_fmap : FMap result := fun A B f r =>
  match r with
  | Ok a => Ok (f a)
  | Raise e => Raise e
  end.

(** [o] when it holds a value, the exception [e] otherwise. *)
Definition or_raise {A} (e : exn) (o : option A) : result A :=
  match o with
  | Some a => Ok a
  | None => Raise e
  end.

(** [assert cond] *)
Definition py_assert (cond : bool) : result unit :=
  if cond then Ok tt else Raise AssertionError.

(** ** numpy and builtin helpers *)

(** [a[i]] for a 1-d array or a list and a Python int: a negative index
    counts from the end, an index out of range raises [IndexError]. *)
Definition np_getitem {A} (a : list A) (i : Z) : result A :=
  let n := Z.of_nat (length a) in
  let j := if i <? 0 then i + n else i in
  if (0 <=? j) && (j <? n) then or_raise IndexError (a !! Z.to_nat j)
  else Raise IndexError.

(** [range(lo, hi)] *)
Definition py_range (lo hi : Z) : list Z := seqZ lo (hi - lo).

(** [d[k]] for a dict *)
Definition dict_getitem {A} (d : gmap Z A) (k : Z) : result A :=
  or_raise KeyError (d !! k).

(** [dict(enumerate(l))] *)
Definition dict_enumerate {A} (l : list A) : gmap Z A := map_seqZ 0 l.

(** ** WindowIndexBuilder: [BaseDataset._create_lookup_table] *)

Module LookupTable.

(** The generator handed to [lookup.extend] for one basin:
    [(basin, dates[f]) for f in range(warmup_length, time_length)
       if f < time_length - rho + 1]. *)
Definition basin_entries (basin : string) (dates : list Z)
    (rho warmup_length : Z) : result (list (string * Z)) :=
  let time_length := Z.of_nat (length dates) in
  mapM (fun f => d ← np_getitem dates f; mret (basin, d))
       (filter (fun f => f < time_length - rho + 1)
               (py_range warmup_length time_length)).

(** The [for basin in basins] loop, threading the list [lookup]. *)
Fixpoint extend_basins (basins : list string) (dates : list Z)
    (rho warmup_length : Z) (lookup : list (string * Z))
    : result (list (string * Z)) :=
  match basins with
  | [] => Ok lookup
  | basin :: rest =>
      es ← basin_entries basin dates rho warmup_length;
      extend_basins rest dates rho warmup_length (lookup ++ es)
  end.

(** What [_create_lookup_table] stores in [self]. *)
Record table := {
  lookup_table : gmap Z (string * Z);
  num_samples : Z
}.

Definition create_lookup_table (basins : list string) (dates : list Z)
    (rho warmup_length : Z) : result table :=
  lookup ← extend_basins basins dates rho warmup_length [];
  let lookup_table := dict_enumerate lookup in
  mret {| lookup_table := lookup_table;
          num_samples := Z.of_nat (size lookup_table) |}.

(** The window starts the claims speak of: the indices
    [warmup_length, ..., time_length - rho], ascending. *)
Definition window_starts (time_length rho warmup_length : Z) : list Z :=
  seqZ warmup_length (time_length - rho - warmup_length + 1).

End LookupTable.

(** ** Arrays: numpy [ndarray] and xarray [DataArray]

    An array is its shape together with an indexing function, so that the
    empty shapes ([(0, n)], [(n, 0)]) stay distinct.  A [DataArray] carries
    its coordinate labels; after [ds.to_array(dim="variable")] the dimensions
    are (variable, basin, time) for series and (variable, basin) for static
    attributes. *)

Record ndarray1 (V : Type) := {
  size1 : nat;
  item1 : nat -> V
}.
Arguments size1 {V} _.
Arguments item1 {V} _ _.

Record ndarray2 (V : Type) := {
  shape0 : nat;
  shape1 : nat;
  item2 : nat -> nat -> V
}.
Arguments shape0 {V} _.
Arguments shape1 {V} _.
Arguments item2 {V} _ _ _.

Record DataArray2 (V : Type) := {
  c_variable : list string;
  c_basin : list string;
  c_values : nat -> nat -> V
}.
Arguments c_variable {V} _.
Arguments c_basin {V} _.
Arguments c_values {V} _ _ _.

Record DataArray3 (V : Type) := {
  da_variable : list string;
  da_basin : list string;
  da_time : list Z;
  da_values : nat -> nat -> nat -> V
}.
Arguments da_variable {V} _.
Arguments da_basin {V} _.
Arguments da_time {V} _.
Arguments da_values {V} _ _ _ _.

Module Arrays.
Section ops.
Context {V : Type}.

(** The rows of a 2-d array, for reading a result off. *)
Definition rows (a : ndarray2 V) : list (list V) :=
  (fun i => (fun j => item2 a i j) <$> seq 0 (shape1 a)) <$> seq 0 (shape0 a).

Definition entries (a : ndarray1 V) : list V :=
  (fun j => item1 a j) <$> seq 0 (size1 a).

(** [a.T] *)
Definition np_T (a : ndarray2 V) : ndarray2 V :=
  {| shape0 := shape1 a; shape1 := shape0 a; item2 := fun i j => item2 a j i |}.

(** [np.tile(c, (reps, 1))] for a 1-d [c]: [reps] copies of [c] as rows. *)
Definition np_tile_rows (c : ndarray1 V) (reps : Z) : result (ndarray2 V) :=
  if reps <? 0 then Raise ValueError
  else Ok {| shape0 := Z.to_nat reps; shape1 := size1 c;
             item2 := fun _ j => item1 c j |}.

(** [np.repeat(c, n, axis=0).reshape(c.shape[0], -1).T] for a 1-d [c]:
    entry [(t, k)] is [c[k]]; reshaping an empty array to [(0, -1)] is
    refused by numpy. *)
Definition np_repeat_reshape_T (c : ndarray1 V) (n : nat) : result (ndarray2 V) :=
  if (size1 c =? 0)%nat then Raise ValueError
  else Ok {| shape0 := n; shape1 := size1 c; item2 := fun _ k => item1 c k |}.

(** [np.concatenate((a, b), axis=1)] for 2-d arrays. *)
Definition np_concatenate_axis1 (a b : ndarray2 V) : result (ndarray2 V) :=
  if (shape0 a =? shape0 b)%nat then
    Ok {| shape0 := shape0 a; shape1 := (shape1 a + shape1 b)%nat;
          item2 := fun i j => if (j <? shape1 a)%nat then item2 a i j
                              else item2 b i (j - shape1 a)%nat |}
  else Raise ValueError.

(** [t[-1, :]] for a 2-d tensor. *)
Definition last_row (t : ndarray2 V) : result (ndarray1 V) :=
  if (shape0 t =? 0)%nat then Raise IndexError
  else Ok {| size1 := shape1 t;
             item1 := fun j => item2 t (shape0 t - 1)%nat j |}.

(** Position of a label in a coordinate, whose labels are unique; a missing
    label is a [KeyError]. *)
Definition index_of (label : string) (coord : list string) : result nat :=
  or_raise KeyError (fst <$> list_find (fun l => l = label) coord).

(** Positions, counted from [k], of the labels of a time coordinate that lie
    in the closed interval [[lo, hi]]: the label-based [slice(lo, hi)] of an
    increasing index, which includes both end points. *)
Fixpoint slice_positions (times : list Z) (lo hi : Z) (k : nat) : list nat :=
  match times with
  | [] => []
  | t :: rest =>
      if bool_decide (lo <= t /\ t <= hi)
      then k :: slice_positions rest lo hi (S k)
      else slice_positions rest lo hi (S k)
  end.

(** [da.sel(basin=basin, time=slice(lo, hi)).to_numpy()],
    of shape (variable, selected times). *)
Definition sel_basin_time (da : DataArray3 V) (basin : string) (lo hi : Z)
    : result (ndarray2 V) :=
  i ← index_of basin (da_basin da);
  let js := slice_positions (da_time da) lo hi 0 in
  mret {| shape0 := length (da_variable da); shape1 := length js;
          item2 := fun v k => da_values da v i (nth k js 0%nat) |}.

(** [da.sel(basin=basin).to_numpy()], of shape (variable, time). *)
Definition sel_basin (da : DataArray3 V) (basin : string) : result (ndarray2 V) :=
  i ← index_of basin (da_basin da);
  mret {| shape0 := length (da_variable da); shape1 := length (da_time da);
          item2 := fun v j => da_values da v i j |}.

(** [c.sel(basin=basin).values], of shape (variable,). *)
Definition sel_basin_attr (c : DataArray2 V) (basin : string) : result (ndarray1 V) :=
  i ← index_of basin (c_basin c);
  mret {| size1 := length (c_variable c); item1 := fun v => c_values c v i |}.

End ops.

(** [torch.from_numpy(a).float()]: the element-wise cast to float32. *)
Definition tensor_float {V W} (cast : V -> W) (a : ndarray2 V) : ndarray2 W :=
  {| shape0 := shape0 a; shape1 := shape1 a;
     item2 := fun i j => cast (item2 a i j) |}.

End Arrays.

(** ** Dataset facade: [BaseDataset] and [BasinSingleFlowDataset] *)

Module Dataset.
Import Arrays.

(** The attributes of a [BaseDataset] that indexing and length read;
    [sites_id] is [t_s_dict["sites_id"]]. *)
Record BaseDataset (V : Type) := {
  sites_id : list string;
  x : DataArray3 V;
  y : DataArray3 V;
  c : option (DataArray2 V);
  train_mode : bool;
  rho : Z;
  warmup_length : Z;
  lookup_table : gmap Z (string * Z);
  num_samples : Z
}.
Arguments sites_id {V} _.
Arguments x {V} _.
Arguments y {V} _.
Arguments c {V} _.
Arguments train_mode {V} _.
Arguments rho {V} _.
Arguments warmup_length {V} _.
Arguments lookup_table {V} _.
Arguments num_samples {V} _.

(** The entries of [data_params] read by the dataset classes. *)
Record data_params := {
  forecast_history : Z;
  dp_warmup_length : Z;
  dp_target_as_input : bool;
  dp_constant_only : bool
}.

(** What [_load_data] obtains from its collaborators for one loader type:
    the basins of [wrap_t_s_dict] and the arrays of [ScalerHub] after
    [kill_nan]. *)
Record scaled (V : Type) := {
  s_sites_id : list string;
  s_x : DataArray3 V;
  s_y : DataArray3 V;
  s_c : option (DataArray2 V)
}.
Arguments s_sites_id {V} _.
Arguments s_x {V} _.
Arguments s_y {V} _.
Arguments s_c {V} _.

Section facade.
Context {V W : Type}.
Variable to_float32 : V -> W.

(** [self._create_lookup_table()] at the end of [_load_data]: the basins are
    [t_s_dict["sites_id"]], the dates the time coordinate of [self.y]. *)
Definition BaseDataset_create_lookup_table (self : BaseDataset V)
    : result (BaseDataset V) :=
  t ← LookupTable.create_lookup_table (sites_id self) (da_time (y self))
        (rho self) (warmup_length self);
  mret {| sites_id := sites_id self; x := x self; y := y self; c := c self;
          train_mode := train_mode self; rho := rho self;
          warmup_length := warmup_length self;
          lookup_table := LookupTable.lookup_table t;
          num_samples := LookupTable.num_samples t |}.

(** [BaseDataset._load_data]; [source] stands for the reads of the data
    source and the normalisation, which are outside this file. *)
Definition BaseDataset_load_data (source : string -> result (scaled V))
    (params : data_params) (loader_type : string) : result (BaseDataset V) :=
  let train_mode := bool_decide (loader_type = "train"%string) in
  s ← source loader_type;
  BaseDataset_create_lookup_table
    {| sites_id := s_sites_id s; x := s_x s; y := s_y s; c := s_c s;
       train_mode := train_mode;
       rho := forecast_history params;
       warmup_length := dp_warmup_length params;
       lookup_table := ∅; num_samples := 0 |}.

(** [BaseDataset.__init__] *)
Definition BaseDataset_init (source : string -> result (scaled V))
    (params : data_params) (loader_type : string) : result (BaseDataset V) :=
  if bool_decide (loader_type ∈ ["train"; "valid"; "test"]%string)
  then BaseDataset_load_data source params loader_type
  else Raise ValueError.

(** A dataset as [_load_data] leaves it: its lookup table is the one
    [_create_lookup_table] builds from its own fields. *)
Definition constructed (self : BaseDataset V) : Prop :=
  exists self0, BaseDataset_create_lookup_table self0 = Ok self.

(** The arrays of a dataset read for the basins [sites_id], each once, over
    the [nt] consecutive days from [d0] on. *)
Definition daily_grid (self : BaseDataset V) (d0 nt : Z) : Prop :=
  NoDup (sites_id self)
  /\ da_time (x self) = seqZ d0 nt /\ da_time (y self) = seqZ d0 nt
  /\ da_basin (x self) = sites_id self /\ da_basin (y self) = sites_id self
  /\ (forall ca, c self = Some ca -> c_basin ca = sites_id self).

(** [self.c is not None and self.c.shape[-1] > 0] *)
Definition has_attributes (self : BaseDataset V) : option (DataArray2 V) :=
  match c self with
  | Some ca => if (0 <? length (c_basin ca))%nat then Some ca else None
  | None => None
  end.

(** [BaseDataset.__len__] *)
Definition BaseDataset_len (self : BaseDataset V) : Z :=
  if train_mode self then num_samples self
  else Z.of_nat (length (sites_id self)).

(** [BaseDataset.__getitem__] *)
Definition BaseDataset_getitem (self : BaseDataset V) (item : Z)
    : result (ndarray2 W * ndarray2 W) :=
  if negb (train_mode self) then
    basin ← np_getitem (sites_id self) item;
    x_ ← np_T <$> sel_basin (x self) basin;
    y_ ← np_T <$> sel_basin (y self) basin;
    match has_attributes self with
    | None => mret (tensor_float to_float32 x_, tensor_float to_float32 y_)
    | Some ca =>
        c0 ← sel_basin_attr ca basin;
        c_ ← np_repeat_reshape_T c0 (shape0 x_);
        xc ← np_concatenate_axis1 x_ c_;
        mret (tensor_float to_float32 xc, tensor_float to_float32 y_)
    end
  else
    '(basin, time) ← dict_getitem (lookup_table self) item;
    let seq_length := rho self in
    let warmup_length := warmup_length self in
    x0 ← np_T <$> sel_basin_time (x self) basin
                    (time - warmup_length) (time + (seq_length - 1));
    x_ ← match has_attributes self with
          | Some ca =>
              c0 ← sel_basin_attr ca basin;
              c_ ← np_tile_rows c0 (warmup_length + seq_length);
              np_concatenate_axis1 x0 c_
          | None => mret x0
          end;
    y_ ← np_T <$> sel_basin_time (y self) basin time (time + (seq_length - 1));
    mret (tensor_float to_float32 x_, tensor_float to_float32 y_).

(** [BasinSingleFlowDataset.__getitem__] *)
Definition BasinSingleFlowDataset_getitem (self : BaseDataset V) (index : Z)
    : result (ndarray2 W * ndarray1 W) :=
  '(xc, ys) ← BaseDataset_getitem self index;
  y_ ← last_row ys;
  mret (xc, y_).

(** [BasinSingleFlowDataset.__len__] *)
Definition BasinSingleFlowDataset_len (self : BaseDataset V) : Z :=
  num_samples self.

End facade.
End Dataset.

(** ** Physically-constrained variant: [DplDataset] *)

Module Dpl.
Import Arrays Dataset.

#[warnings="-register-all"]
Inductive DplDataset (V : Type) : Type :=
  mkDplDataset {
    base : BaseDataset V;
    target_as_input : bool;
    constant_only : bool;
    train_dataset : option (DplDataset V)
  }.
Arguments mkDplDataset {V} _ _ _ _.
Arguments base {V} _.
Arguments target_as_input {V} _.
Arguments constant_only {V} _.
Arguments train_dataset {V} _.

(** Every name an instance of [DplDataset] answers to: the attributes set by
    [BaseDataset.__init__], [_load_data], [_create_lookup_table] and
    [DplDataset.__init__], and the methods of the two classes (those of
    [torch.utils.data.Dataset] are dunder methods). *)
Definition DplDataset_attributes : list string :=
  [ "data_source"; "data_params"; "loader_type"; "t_s_dict";
    "x_origin"; "y_origin"; "c_origin"; "x"; "y"; "c";
    "train_mode"; "rho"; "target_scaler"; "warmup_length";
    "lookup_table"; "num_samples";
    "target_as_input"; "constant_only"; "train_dataset";
    "_load_data"; "_trans2da_and_setunits"; "kill_nan";
    "_create_lookup_table";
    "__init__"; "__len__"; "__getitem__"; "__add__" ]%string.

(** Attribute access [obj.name] on an object answering to [attrs]. *)
Definition py_getattr (attrs : list string) (name : string) : result unit :=
  if bool_decide (name ∈ attrs) then Ok tt else Raise AttributeError.

Section dpl.
Context {V : Type}.
Variable source : string -> result (scaled V).
Variable params : data_params.

(** [DplDataset.__init__].  The constructor calls itself for the training
    period; [fuel] bounds the depth of that recursion. *)
Fixpoint DplDataset_init (fuel : nat) (loader_type : string)
    : option (result (DplDataset V)) :=
  match fuel with
  | O => None
  | S fuel' =>
      match BaseDataset_init source params loader_type with
      | Raise e => Some (Raise e)
      | Ok b =>
          let b := {| sites_id := sites_id b; x := x b; y := y b; c := c b;
                      train_mode := train_mode b; rho := rho b;
                      warmup_length := dp_warmup_length params;
                      lookup_table := lookup_table b;
                      num_samples := num_samples b |} in
          if dp_target_as_input params && negb (train_mode b) then
            match DplDataset_init fuel' "train" with
            | None => None
            | Some (Raise e) => Some (Raise e)
            | Some (Ok td) =>
                Some (Ok (mkDplDataset b (dp_target_as_input params)
                            (dp_constant_only params) (Some td)))
            end
          else
            Some (Ok (mkDplDataset b (dp_target_as_input params)
                        (dp_constant_only params) None))
      end
  end.

(** The first statements of the inference branch of
    [DplDataset.__getitem__] (the [else] of [if self.train_mode]), up to the
    value of [x_norm]:
    [basin = self.t_s_dict["sites_id"][item]],
    [x_norm = self.x.sel(basin=basin).to_numpy().T], and under
    [target_as_input]
    [x_norm = self.train_dataset.sel(basin=basin).to_numpy().T], where
    [self.train_dataset] is a [DplDataset]. *)
Definition DplDataset_getitem_x_norm (self : DplDataset V) (item : Z)
    : result (ndarray2 V) :=
  basin ← np_getitem (sites_id (base self)) item;
  x_norm ← np_T <$> sel_basin (x (base self)) basin;
  if target_as_input self then
    _ ← py_getattr DplDataset_attributes "sel";
    (* no class of the hierarchy defines [sel]: nothing to call *)
    Raise TypeError
  else mret x_norm.

(** The inference branch of [DplDataset.__getitem__]; [rest] is the
    remainder of the branch, from the test of [self.c] on. *)
Definition DplDataset_getitem_inference {Res : Type}
    (rest : DplDataset V -> Z -> ndarray2 V -> result Res)
    (self : DplDataset V) (item : Z) : result Res :=
  x_norm ← DplDataset_getitem_x_norm self item;
  rest self item x_norm.

End dpl.
End Dpl.

(** ** EpochSampler: [KuaiSampler]

    The integer part of the constructor is modelled on [Z].  The iteration
    count goes through [np.log] and [np.ceil]; it is modelled in exact real
    arithmetic (rounding of binary64 is not modelled), with the non-finite
    floats the code can meet ([nan], [inf]) mapped to the exceptions that
    [int(...)] raises on them. *)

Module KuaiSampler.

(** [torch.utils.data.RandomSampler], as far as its constructor arguments go:
    [RandomSampler(data_source, replacement=False, num_samples=None)]. *)
Record RandomSampler := {
  data_source_len : Z;
  replacement : bool;
  rs_num_samples : Z
}.

(** [RandomSampler.__init__(data_source, num_samples=num_samples)]:
    [replacement] keeps its default. *)
Definition RandomSampler_init (data_source_len num_samples : Z) : RandomSampler :=
  {| data_source_len := data_source_len;
     replacement := false;
     rs_num_samples := num_samples |}.



(** [while batch_size * rho >= ngrid * nt: batch_size = int(batch_size / 10)].
    [int(b / 10)] truncates towards zero.  [None] is "still looping after
    [fuel] tests of the condition". *)
Fixpoint shrink (fuel : nat) (batch_size rho ngrid nt : Z) : option Z :=
  match fuel with
  | O => None
  | S fuel' =>
      if batch_size * rho >=? ngrid * nt
      then shrink fuel' (batch_size ÷ 10) rho ngrid nt
      else Some batch_size
  end.

(** The loop followed by [batch_size = max(batch_size, 1)]. *)
Definition shrink_batch_size (fuel : nat) (batch_size rho ngrid nt : Z) : option Z :=
  b ← shrink fuel batch_size rho ngrid nt;
  Some (Z.max b 1).

(** [np.ceil] on a real, as an integer. *)
Definition Rceil (r : R) : Z := 1 - up (- r).

(** [int(np.ceil(np.log(0.01) /
         np.log(1 - batch_size * rho / ngrid / (nt - warmup_length))))].
    Python's [/] on ints raises on a zero divisor; [np.log] gives [nan] below
    zero and [-inf] at zero; a quotient by [np.log(1.0) = 0.0] is infinite. *)
Definition n_iter_ep (batch_size rho ngrid nt warmup_length : Z) : result Z :=
  if ngrid =? 0 then Raise ZeroDivisionError
  else if nt - warmup_length =? 0 then Raise ZeroDivisionError
  else
    let q := (1 - IZR (batch_size * rho) / IZR ngrid
                    / IZR (nt - warmup_length))%R in
    if Rlt_dec q 0 then Raise ValueError
    else if Req_dec_T q 0 then Ok 0
    else if Req_dec_T q 1 then Raise OverflowError
    else Ok (Rceil (ln (1 / 100) / ln q)).

(** The iteration count as the specification writes it:
    [ceil(ln(0.01) / ln(1 - b*rho / (ngrid*(nt - w))))]. *)
Definition n_iter_spec (b rho ngrid nt w : Z) : Z :=
  Rceil (ln (1 / 100)
         / ln (1 - IZR (b * rho) / (IZR ngrid * IZR (nt - w))))%R.

(** [KuaiSampler.__init__] from the assignment of [n_iter_ep] on, for the
    batch size left by the loop and the [max]. *)
Definition KuaiSampler_sample_count (data_source_len batch_size warmup_length
    rho ngrid nt : Z) : result RandomSampler :=
  n_iter_ep ← n_iter_ep batch_size rho ngrid nt warmup_length;
  _ ← py_assert (n_iter_ep >=? 1);
  let num_samples := n_iter_ep * batch_size in
  mret (RandomSampler_init data_source_len num_samples).

(** [KuaiSampler.__init__]; [None] when the loop has not ended within
    [fuel] tests. *)
Definition KuaiSampler_init (fuel : nat) (data_source_len batch_size
    warmup_length rho ngrid nt : Z) : option (result RandomSampler) :=
  b ← shrink_batch_size fuel batch_size rho ngrid nt;
  Some (KuaiSampler_sample_count data_source_len b warmup_length rho ngrid nt).

End KuaiSampler.

(** ** Persistence of statistics: [DapengScaler.__init__] and the generic
    branch of [ScalerHub.__init__]

    The file system is a finite map from paths to contents, threaded through
    the constructors together with the exception they may raise.  Paths name
    regular files and are compared as strings; the run directory exists. *)

Module Persistence.

Abbreviation files := (gmap string string).

Definition io (A : Type) : Type := files -> files * result A.

#[global] Instance io_ret : MRet io := fun A a fs => (fs, Ok a).
#[global] Instance io_bind : MBind io := fun A B f m fs =>
  match m fs with
  | (fs', Ok a) => f a fs'
  | (fs', Raise e) => (fs', Raise e)
  end.

Definition io_raise {A} (e : exn) : io A := fun fs => (fs, Raise e).
Definition io_lift {A} (r : result A) : io A := fun fs => (fs, r).

(** [os.path.join(a, b)] for a relative [b]. *)
Definition os_path_join (a b : string) : string :=
  if bool_decide (a = ""%string) then b
  else if bool_decide
            (String.substring (String.length a - 1)%nat 1 a = "/"%string)
       then a +:+ b
       else a +:+ "/" +:+ b.

(** [os.path.isfile(p)] *)
Definition os_path_isfile (p : string) : io bool :=
  fun fs => (fs, Ok (bool_decide (is_Some (fs !! p)))).

(** [shutil.copy(src, dst)]: a missing source is a [FileNotFoundError],
    copying a file onto itself a [SameFileError]. *)
Definition shutil_copy (src dst : string) : io unit :=
  fun fs =>
    match fs !! src with
    | None => (fs, Raise FileNotFoundError)
    | Some content =>
        if bool_decide (src = dst) then (fs, Raise SameFileError)
        else (<[dst := content]> fs, Ok tt)
    end.

(** [with open(p, "w") as fp: fp.write(content)] *)
Definition write_file (p content : string) : io unit :=
  fun fs => (<[p := content]> fs, Ok tt).

(** [with open(p, "r") as fp: fp.read()] *)
Definition read_file (p : string) : io string :=
  fun fs => (fs, or_raise FileNotFoundError (fs !! p)).

(** [data_params], as far as the scalers read it for persistence. *)
Record scaler_params := {
  test_path : string;
  stat_dict_file : option string
}.

(** [if data_params["stat_dict_file"] is not None: shutil.copy(..., dst)] *)
Definition copy_assigned (params : scaler_params) (dst : string) : io unit :=
  match stat_dict_file params with
  | Some f => shutil_copy f dst
  | None => mret tt
  end.

(** [loader_type == "train" and data_params["stat_dict_file"] is None] *)
Definition fits_here (params : scaler_params) (loader_type : string) : bool :=
  bool_decide (loader_type = "train"%string)
  && bool_decide (stat_dict_file params = None).

(** What the loading branch of a constructor leaves of the file system and
    which content it reads from [dst], or the exception it ends with: an
    assigned file is copied over [dst] first; [absent] is the exception for a
    [dst] that does not exist.  The constructors are compared with it below. *)
Definition reuse_outcome (absent : exn) (params : scaler_params) (dst : string)
    (fs : files) : files * result string :=
  match stat_dict_file params with
  | None =>
      match fs !! dst with
      | None => (fs, Raise absent)
      | Some content => (fs, Ok content)
      end
  | Some f =>
      match fs !! f with
      | None => (fs, Raise FileNotFoundError)
      | Some content =>
          if bool_decide (f = dst) then (fs, Raise SameFileError)
          else (<[dst := content]> fs, Ok content)
      end
  end.

Section dapeng.
Context {Data StatDict : Type}.
(** [self.cal_stat_all()] on the arrays handed to the constructor. *)
Variable cal_stat_all : Data -> StatDict.
(** [json.dump] and [json.load] *)
Variable json_dump : StatDict -> string.
Variable json_load : string -> result StatDict.

Definition stat_file_of (params : scaler_params) : string :=
  os_path_join (test_path params) "dapengscaler_stat.json".

(** The persistence part of [DapengScaler.__init__]: the value of
    [self.stat_dict]. *)
Definition DapengScaler_init (data : Data) (params : scaler_params)
    (loader_type : string) : io StatDict :=
  let stat_file := stat_file_of params in
  if fits_here params loader_type then
    let stat_dict := cal_stat_all data in
    _ ← write_file stat_file (json_dump stat_dict);
    mret stat_dict
  else
    _ ← copy_assigned params stat_file;
    isfile ← os_path_isfile stat_file;
    _ ← io_lift (py_assert isfile);
    content ← read_file stat_file;
    io_lift (json_load content).

End dapeng.

Section generic.
Context {Arr Scaler : Type}.
(** [data_tmp.ndim] *)
Variable ndim : Arr -> nat.
(** [data_tmp.to_numpy().reshape(-1, num_features)] and
    [data_norm.reshape(num_instances, num_time_steps, num_features)] *)
Variable reshape2 : Arr -> Arr.
Variable reshape3 : Arr -> Arr -> Arr.
(** [SCALER_DICT[scaler_type]()] followed by [fit], and [transform];
    [fit_transform] is [fit] then [transform]. *)
Variable fit : Arr -> Scaler.
Variable transform : Scaler -> Arr -> Arr.
(** [pkl.dump] and [pkl.load] *)
Variable pkl_dump : Scaler -> string.
Variable pkl_load : string -> result Scaler.

Definition save_file_of (params : scaler_params) (key : string) : string :=
  os_path_join (test_path params) (key +:+ "_scaler.pkl").

(** One round of the loop over [all_vars]: the normalised array and the
    scaler in use at the end of the round. *)
Definition ScalerHub_group (params : scaler_params) (loader_type : string)
    (key : string) (data_tmp : Arr) : io (Arr * Scaler) :=
  let save_file := save_file_of params key in
  if (ndim data_tmp =? 3)%nat then
    let flat := reshape2 data_tmp in
    '(data_norm, scaler) ←
      (if fits_here params loader_type then
         let scaler := fit flat in
         _ ← write_file save_file (pkl_dump scaler);
         mret (transform scaler flat, scaler)
       else
         _ ← copy_assigned params save_file;
         isfile ← os_path_isfile save_file;
         if negb isfile then io_raise FileNotFoundError
         else
           content ← read_file save_file;
           scaler ← io_lift (pkl_load content);
           mret (transform scaler flat, scaler));
    mret (reshape3 data_tmp data_norm, scaler)
  else
    if fits_here params loader_type then
      let scaler := fit data_tmp in
      _ ← write_file save_file (pkl_dump scaler);
      mret (transform scaler data_tmp, scaler)
    else
      _ ← copy_assigned params save_file;
      isfile ← os_path_isfile save_file;
      _ ← io_lift (py_assert isfile);
      content ← read_file save_file;
      scaler ← io_lift (pkl_load content);
      mret (transform scaler data_tmp, scaler).

(** The generic branch of [ScalerHub.__init__]:
    [(x, y, c)] and [self.target_scaler]. *)
Definition ScalerHub_generic (params : scaler_params) (loader_type : string)
    (target_vars relevant_vars constant_vars : Arr)
    : io (Arr * Arr * Arr * Scaler) :=
  '(y_, target_scaler) ← ScalerHub_group params loader_type "target_vars" target_vars;
  '(x_, _) ← ScalerHub_group params loader_type "relevant_vars" relevant_vars;
  '(c_, _) ← ScalerHub_group params loader_type "constant_vars" constant_vars;
  mret (x_, y_, c_, target_scaler).

End generic.
End Persistence.

(** ** Normalisation of targets: [DapengScaler.get_data_obs] and
    [DapengScaler.inverse_transform]

    Array payloads are floats in exact real arithmetic: [Fin r] is the finite
    value [r], [NaN] the missing-value marker (and whatever is not a finite
    number).  Every operation propagates [NaN]. *)

Module Normalization.
Import Arrays.

Inductive fval : Type :=
  | NaN
  | Fin (r : R).

Definition fadd (a b : fval) : fval :=
  match a, b with Fin a, Fin b => Fin (a + b) | _, _ => NaN end.
Definition fsub (a b : fval) : fval :=
  match a, b with Fin a, Fin b => Fin (a - b) | _, _ => NaN end.
Definition fmul (a b : fval) : fval :=
  match a, b with Fin a, Fin b => Fin (a * b) | _, _ => NaN end.
Definition fdiv (a b : fval) : fval :=
  match a, b with
  | Fin a, Fin b => if Req_dec_T b 0 then NaN else Fin (a / b)
  | _, _ => NaN
  end.
Definition fsqrt (a : fval) : fval :=
  match a with
  | Fin a => if Rlt_dec a 0 then NaN else Fin (sqrt a)
  | NaN => NaN
  end.
Definition flog (a : fval) : fval :=
  match a with
  | Fin a => if Rle_dec a 0 then NaN else Fin (ln a)
  | NaN => NaN
  end.
Definition fexp (a : fval) : fval :=
  match a with Fin a => Fin (exp a) | NaN => NaN end.

(** A statistic tuple, as far as normalisation reads it. *)
Record stat := { mean : R; std : R }.

Inductive policy := Plain | Gamma.

(** Modelled from the spec: the element-wise forward transform of
    [_trans_norm] in [torchhydro.datasets.data_utils], which is not among
    the sources.  Plain is [(x - mean) / std]; gamma applies
    [log(sqrt(x) + 0.1)] before the plain z-score. *)
Definition forward (p : policy) (s : stat) (x : fval) : fval :=
  let v := match p with
           | Plain => x
           | Gamma => flog (fadd (fsqrt x) (Fin (1 / 10)))
           end in
  fdiv (fsub v (Fin (mean s))) (Fin (std s)).

(** Modelled from the spec: the element-wise inverse transform of
    [_trans_norm].  Plain is [z * std + mean]; gamma de-normalises and then
    inverts the log-sqrt map, [(exp(v) - 0.1)^2]. *)
Definition inverse (p : policy) (s : stat) (z : fval) : fval :=
  let v := fadd (fmul z (Fin (std s))) (Fin (mean s)) in
  match p with
  | Plain => v
  | Gamma => let e := fsub (fexp v) (Fin (1 / 10)) in fmul e e
  end.

(** [xr.full_like(data, np.nan)] *)
Definition full_like_nan (data : DataArray3 fval) : DataArray3 fval :=
  {| da_variable := da_variable data; da_basin := da_basin data;
     da_time := da_time data; da_values := fun _ _ _ => NaN |}.

(** [out.loc[dict(variable=var)] = m] at the position [v] of [var]. *)
Definition set_variable (out : DataArray3 fval) (v : nat)
    (m : nat -> nat -> fval) : DataArray3 fval :=
  {| da_variable := da_variable out; da_basin := da_basin out;
     da_time := da_time out;
     da_values := fun v' i j => if (v' =? v)%nat then m i j
                                else da_values out v' i j |}.

(** Modelled from the spec: [_trans_norm(x, var_lst, stat_dict,
    log_norm_cols, to_norm)] of [torchhydro.datasets.data_utils].  Each
    variable of [var_lst] is transformed element-wise with its statistic,
    by the gamma policy when it is listed in [log_norm_cols] and by the plain
    one otherwise; the spec is silent on variables outside [var_lst], which
    are left as they are. *)
Fixpoint trans_norm_loop (x : DataArray3 fval) (var_lst : list string)
    (stat_dict : gmap string stat) (log_norm_cols : list string)
    (to_norm : bool) (out : DataArray3 fval) : result (DataArray3 fval) :=
  match var_lst with
  | [] => Ok out
  | item :: rest =>
      s ← or_raise KeyError (stat_dict !! item);
      v ← index_of item (da_variable x);
      let p := if bool_decide (item ∈ log_norm_cols) then Gamma else Plain in
      let f := if to_norm then forward p s else inverse p s in
      trans_norm_loop x rest stat_dict log_norm_cols to_norm
        (set_variable out v (fun i j => f (da_values x v i j)))
  end.

Definition trans_norm (x : DataArray3 fval) (var_lst : list string)
    (stat_dict : gmap string stat) (log_norm_cols : list string)
    (to_norm : bool) : result (DataArray3 fval) :=
  trans_norm_loop x var_lst stat_dict log_norm_cols to_norm x.

(** Modelled from the spec: [_prcp_norm(x, mean_prep, to_norm)] of
    [torchhydro.datasets.data_utils].  The value of a unit is divided by the
    reference of that unit on the way in and multiplied by it on the way
    out. *)
Definition prcp_norm (x : nat -> nat -> fval) (mean_prep : nat -> fval)
    (to_norm : bool) : nat -> nat -> fval :=
  fun i j => if to_norm then fdiv (x i j) (mean_prep i)
             else fmul (x i j) (mean_prep i).

(** The attributes of a [DapengScaler] that the target transforms read;
    [mean_prep] is [data_source.read_mean_prcp(sites_id)]. *)
Record DapengScaler := {
  data_target : DataArray3 fval;
  target_cols : list string;
  prcp_norm_cols : list string;
  gamma_norm_cols : list string;
  pbm_norm : bool;
  stat_dict : gmap string stat;
  mean_prep : nat -> fval
}.

(** [self.log_norm_cols = gamma_norm_cols + prcp_norm_cols] *)
Definition log_norm_cols (self : DapengScaler) : list string :=
  gamma_norm_cols self ++ prcp_norm_cols self.

(** The loop of [get_data_obs] over [target_cols]: only the variables of
    [prcp_norm_cols] are written to [out]. *)
Fixpoint get_data_obs_loop (self : DapengScaler) (data : DataArray3 fval)
    (cols : list string) (out : DataArray3 fval) : result (DataArray3 fval) :=
  match cols with
  | [] => Ok out
  | var :: rest =>
      if bool_decide (var ∈ prcp_norm_cols self) then
        v ← index_of var (da_variable data);
        get_data_obs_loop self data rest
          (set_variable out v (prcp_norm (da_values data v) (mean_prep self) true))
      else get_data_obs_loop self data rest out
  end.

(** [DapengScaler.get_data_obs] *)
Definition get_data_obs (self : DapengScaler) (to_norm : bool)
    : result (DataArray3 fval) :=
  let data := data_target self in
  let out := full_like_nan data in
  out ← get_data_obs_loop self data (target_cols self) out;
  trans_norm out (target_cols self) (stat_dict self) (log_norm_cols self) to_norm.

(** The loop of [inverse_transform] over [target_cols]. *)
Fixpoint inverse_transform_loop (self : DapengScaler) (cols : list string)
    (pred : DataArray3 fval) : result (DataArray3 fval) :=
  match cols with
  | [] => Ok pred
  | var :: rest =>
      if bool_decide (var ∈ prcp_norm_cols self) then
        v ← index_of var (da_variable pred);
        inverse_transform_loop self rest
          (set_variable pred v (prcp_norm (da_values pred v) (mean_prep self) false))
      else inverse_transform_loop self rest pred
  end.

(** [DapengScaler.inverse_transform]; [unify_streamflow_unit_inverse] is the
    final conversion of units, [unify_streamflow_unit(pred_ds, area=area,
    inverse=True)], which is outside this file. *)
Definition inverse_transform
    (unify_streamflow_unit_inverse : DataArray3 fval -> DataArray3 fval)
    (self : DapengScaler) (target_values : DataArray3 fval)
    : result (DataArray3 fval) :=
  pred ← (if pbm_norm self then Ok target_values
          else
            pred ← trans_norm target_values (target_cols self) (stat_dict self)
                     (log_norm_cols self) false;
            inverse_transform_loop self (target_cols self) pred);
  mret (unify_streamflow_unit_inverse pred).

End Normalization.

(** ** Small concrete inputs, used by the examples below *)

Module Demo.
Import Dataset.

(** Two basins over the five days 100..104; a payload encodes its own
    position as [1000 * array + 100 * variable + 10 * basin + day index]. *)
Definition demo_x : DataArray3 Z :=
  {| da_variable := ["prcp"; "pet"]%string;
     da_basin := ["b0"; "b1"]%string;
     da_time := seqZ 100 5;
     da_values := fun v i j =>
       1000 + 100 * Z.of_nat v + 10 * Z.of_nat i + Z.of_nat j |}.

Definition demo_y : DataArray3 Z :=
  {| da_variable := ["streamflow"]%string;
     da_basin := ["b0"; "b1"]%string;
     da_time := seqZ 100 5;
     da_values := fun v i j =>
       2000 + 100 * Z.of_nat v + 10 * Z.of_nat i + Z.of_nat j |}.

Definition demo_c : DataArray2 Z :=
  {| c_variable := ["area"]%string;
     c_basin := ["b0"; "b1"]%string;
     c_values := fun u i => 3000 + 100 * Z.of_nat u + 10 * Z.of_nat i |}.

Definition demo_source (loader_type : string) : result (scaled Z) :=
  Ok {| s_sites_id := ["b0"; "b1"]%string;
        s_x := demo_x; s_y := demo_y; s_c := Some demo_c |}.

(** [forecast_history = 2], [warmup_length = 1] *)
Definition demo_params (target_as_input : bool) : data_params :=
  {| forecast_history := 2; dp_warmup_length := 1;
     dp_target_as_input := target_as_input; dp_constant_only := false |}.

(** The dataset before and after [_create_lookup_table]. *)
Definition demo_loaded (train_mode : bool) : BaseDataset Z :=
  {| sites_id := ["b0"; "b1"]%string;
     x := demo_x; y := demo_y; c := Some demo_c;
     train_mode := train_mode; rho := 2; warmup_length := 1;
     lookup_table := ∅; num_samples := 0 |}.

Definition demo_dataset (train_mode : bool) : BaseDataset Z :=
  {| sites_id := ["b0"; "b1"]%string;
     x := demo_x; y := demo_y; c := Some demo_c;
     train_mode := train_mode; rho := 2; warmup_length := 1;
     lookup_table :=
       dict_enumerate [("b0", 101); ("b0", 102); ("b0", 103);
                       ("b1", 101); ("b1", 102); ("b1", 103)]%string;
     num_samples := 6 |}.

Import Normalization.

(** A scaler whose only target, evapotranspiration, follows the gamma
    policy: one basin, one day, the value 4. *)
Definition demo_scaler : DapengScaler :=
  {| data_target :=
       {| da_variable := ["et"]%string; da_basin := ["b0"]%string;
          da_time := [100]; da_values := fun _ _ _ => Fin 4 |};
     target_cols := ["et"]%string;
     prcp_norm_cols := ["streamflow"]%string;
     gamma_norm_cols := ["et"]%string;
     pbm_norm := false;
     stat_dict := {[ "et"%string := {| mean := 0; std := 1 |} ]};
     mean_prep := fun _ => Fin 1 |}.

Import Persistence.

(** A run directory without and with an assigned statistics file. *)
Definition demo_run : scaler_params :=
  {| test_path := "run"; stat_dict_file := None |}.
Definition demo_run_assigned : scaler_params :=
  {| test_path := "run"; stat_dict_file := Some "pub/stat.json"%string |}.

(** The files of a run that has been trained, next to an assigned file. *)
Definition demo_files : files :=
  {[ "run/dapengscaler_stat.json"%string := "trained"%string;
     "run/target_vars_scaler.pkl"%string := "fitted"%string;
     "pub/stat.json"%string := "assigned"%string ]}.

End Demo.

(** ** GapFiller: [_fill_gaps_da] and [BaseDataset.kill_nan]

    The mean is taken in exact real arithmetic over the values that are
    not [NaN], as [mean(dim="basin")] skips missing values. *)

Module GapFiller.
Import Normalization.

(** Sum and number of the finite values among [f 0 .. f (n - 1)]. *)
Fixpoint finite_sum (f : nat -> fval) (n : nat) : R :=
  match n with
  | O => 0
  | S k => match f k with
           | Fin r => finite_sum f k + r
           | NaN => finite_sum f k
           end
  end.

Fixpoint finite_count (f : nat -> fval) (n : nat) : nat :=
  match n with
  | O => O
  | S k => match f k with
           | Fin _ => S (finite_count f k)
           | NaN => finite_count f k
           end
  end.

(** The mean of [f 0 .. f (n - 1)] skipping [NaN]; [NaN] when no value is
    finite. *)
Definition nanmean (f : nat -> fval) (n : nat) : fval :=
  if (finite_count f n =? 0)%nat then NaN
  else Fin (finite_sum f n / INR (finite_count f n)).

(** [x.fillna(m)] on one element. *)
Definition fillna (x m : fval) : fval :=
  match x with
  | NaN => m
  | Fin _ => x
  end.

(** One round of the loop of the policy ["mean"] for an array of dimensions
    (variable, basin): [mean_val = var_data.mean(dim="basin")],
    [da.loc[dict(variable=var)] = var_data.fillna(mean_val)], for the
    variable at position [v]. *)
Definition fill_mean_variable2 (da : DataArray2 fval) (v : nat)
    : DataArray2 fval :=
  let var_data := c_values da v in
  let mean_val := nanmean var_data (length (c_basin da)) in
  {| c_variable := c_variable da; c_basin := c_basin da;
     c_values := fun v' i => if (v' =? v)%nat then fillna (var_data i) mean_val
                             else c_values da v' i |}.

(** The same for dimensions (variable, basin, time): the mean over the
    basins is taken at each time. *)
Definition fill_mean_variable3 (da : DataArray3 fval) (v : nat)
    : DataArray3 fval :=
  let var_data := da_values da v in
  let mean_val := fun j => nanmean (fun i => var_data i j) (length (da_basin da)) in
  {| da_variable := da_variable da; da_basin := da_basin da;
     da_time := da_time da;
     da_values := fun v' i j =>
       if (v' =? v)%nat then fillna (var_data i j) (mean_val j)
       else da_values da v' i j |}.

(** [for var in da["variable"].values: ...], the labels of the coordinate
    being unique. *)
Definition fill_mean2 (da : DataArray2 fval) : DataArray2 fval :=
  foldl fill_mean_variable2 da (seq 0 (length (c_variable da))).

Definition fill_mean3 (da : DataArray3 fval) : DataArray3 fval :=
  foldl fill_mean_variable3 da (seq 0 (length (da_variable da))).

Section fill_gaps.
Context {A : Type}.
(** The bodies of the three policies for the arrays at hand. *)
Variable et_ssm_ignore : A -> result A.
Variable mean : A -> result A.
Variable interpolate : A -> result A.

(** [_fill_gaps_da(da, fill_nan)]; the array is changed in place and
    returned. *)
Definition fill_gaps_da (da : option A) (fill_nan : option string)
    : result (option A) :=
  match fill_nan, da with
  | None, _ => Ok da
  | _, None => Ok da
  | Some policy, Some a =>
      if bool_decide (policy = "et_ssm_ignore"%string)
      then Some <$> et_ssm_ignore a
      else if bool_decide (policy = "mean"%string) then Some <$> mean a
      else if bool_decide (policy = "interpolate"%string)
           then Some <$> interpolate a
      else Raise NotImplementedError
  end.

End fill_gaps.

(** The flags [target_rm_nan], [relevant_rm_nan] and [constant_rm_nan] of
    [data_params]. *)
Record rm_nan := {
  target_rm_nan : bool;
  relevant_rm_nan : bool;
  constant_rm_nan : bool
}.

Section kill_nan.
(** The policies that [kill_nan] does not call for, and the interpolation
    along time, which is left to xarray. *)
Variable et_ssm_ignore3 : DataArray3 fval -> result (DataArray3 fval).
Variable interpolate3 : DataArray3 fval -> result (DataArray3 fval).
Variable et_ssm_ignore2 : DataArray2 fval -> result (DataArray2 fval).
Variable interpolate2 : DataArray2 fval -> result (DataArray2 fval).

Definition fill_gaps_da3 :=
  fill_gaps_da et_ssm_ignore3 (fun a => Ok (fill_mean3 a)) interpolate3.
Definition fill_gaps_da2 :=
  fill_gaps_da et_ssm_ignore2 (fun a => Ok (fill_mean2 a)) interpolate2.

(** [BaseDataset.kill_nan(x, c, y)], which returns [(x, y, c)]. *)
Definition kill_nan (flags : rm_nan) (x : option (DataArray3 fval))
    (c : option (DataArray2 fval)) (y : option (DataArray3 fval))
    : result (option (DataArray3 fval) * option (DataArray3 fval)
              * option (DataArray2 fval)) :=
  x ← (if relevant_rm_nan flags then fill_gaps_da3 x (Some "interpolate"%string)
       else Ok x);
  y ← (if target_rm_nan flags then fill_gaps_da3 y (Some "interpolate"%string)
       else Ok y);
  c ← (if constant_rm_nan flags then fill_gaps_da2 c (Some "mean"%string)
       else Ok c);
  mret (x, y, c).

End kill_nan.
End GapFiller.

(** ** StatisticsEngine: [DapengScaler.cal_stat_all]

    The statistic functions of [hydroutils] are parameters. *)

Module Statistics.
Import Arrays Normalization.

(** A numpy array of one or two dimensions. *)
Inductive ndarray : Type :=
  | Nd1 (a : ndarray1 fval)
  | Nd2 (a : ndarray2 fval).

(** [da.sel(variable=var).to_numpy()] *)
Definition sel_variable3 (da : DataArray3 fval) (var : string)
    : result (ndarray2 fval) :=
  v ← index_of var (da_variable da);
  mret {| shape0 := length (da_basin da); shape1 := length (da_time da);
          item2 := da_values da v |}.

Definition sel_variable2 (da : DataArray2 fval) (var : string)
    : result (ndarray1 fval) :=
  v ← index_of var (c_variable da);
  mret {| size1 := length (c_basin da); item1 := c_values da v |}.

(** The attributes of a [DapengScaler] that [cal_stat_all] reads. *)
Record scaler_data := {
  data_target : DataArray3 fval;
  data_forcing : DataArray3 fval;
  data_attr : DataArray2 fval;
  target_cols : list string;
  relevant_cols : list string;
  constant_cols : list string;
  prcp_norm_cols : list string;
  gamma_norm_cols : list string;
  mean_prep : nat -> fval
}.

Section cal_stat.
Context {Stat : Type}.
Variable cal_stat_prcp_norm : ndarray2 fval -> (nat -> fval) -> Stat.
Variable cal_stat_gamma : ndarray2 fval -> Stat.
Variable cal_stat : ndarray -> Stat.

(** The body of the loop over [target_cols]. *)
Definition target_stat (self : scaler_data) (var : string) : result Stat :=
  if bool_decide (var ∈ prcp_norm_cols self) then
    a ← sel_variable3 (data_target self) var;
    mret (cal_stat_prcp_norm a (mean_prep self))
  else if bool_decide (var ∈ gamma_norm_cols self) then
    cal_stat_gamma <$> sel_variable3 (data_target self) var
  else
    (fun a => cal_stat (Nd2 a)) <$> sel_variable3 (data_target self) var.

(** The body of the loop over [relevant_cols]. *)
Definition forcing_stat (self : scaler_data) (var : string) : result Stat :=
  if bool_decide (var ∈ gamma_norm_cols self) then
    cal_stat_gamma <$> sel_variable3 (data_forcing self) var
  else
    (fun a => cal_stat (Nd2 a)) <$> sel_variable3 (data_forcing self) var.

(** The body of the loop over [constant_cols]. *)
Definition attr_stat (self : scaler_data) (var : string) : result Stat :=
  (fun a => cal_stat (Nd1 a)) <$> sel_variable2 (data_attr self) var.

(** [for k in range(len(cols)): var = cols[k]; stat_dict[var] = body(var)] *)
Fixpoint stat_loop (body : string -> result Stat) (cols : list string)
    (stat_dict : gmap string Stat) : result (gmap string Stat) :=
  match cols with
  | [] => Ok stat_dict
  | var :: rest =>
      s ← body var;
      stat_loop body rest (<[var := s]> stat_dict)
  end.

(** [DapengScaler.cal_stat_all] *)
Definition cal_stat_all (self : scaler_data) : result (gmap string Stat) :=
  stat_dict ← stat_loop (target_stat self) (target_cols self) ∅;
  stat_dict ← stat_loop (forcing_stat self) (relevant_cols self) stat_dict;
  stat_loop (attr_stat self) (constant_cols self) stat_dict.

End cal_stat.
End Statistics.

(** ** Demonstration attributes with gaps: one attribute, three basins, the
    second of which has no value. *)

Module DemoGaps.
Import Normalization GapFiller.

Definition demo_attr : DataArray2 fval :=
  {| c_variable := ["area"]%string;
     c_basin := ["b0"; "b1"; "b2"]%string;
     c_values := fun v i => match i with
                            | 0%nat => Fin 2
                            | 1%nat => NaN
                            | _ => Fin 4
                            end |}.

(** Only the attributes are to be filled. *)
Definition demo_flags : rm_nan :=
  {| target_rm_nan := false; relevant_rm_nan := false;
     constant_rm_nan := true |}.

End DemoGaps.

(** * Proofs

    ** The result monad, ranges and flattened lists *)

Section result_facts.
Context {A B : Type}.

Lemma mapM_result_fmap (f : A -> result B) (g : A -> B) (l : list A) :
  (forall a, a ∈ l -> f a = Ok (g a)) -> mapM f l = Ok (g <$> l).
Proof.
  induction l as [|a l IH]; intros Hf; [reflexivity|].
  cbn. rewrite (Hf a) by left. cbn.
  rewrite IH by (intros; apply Hf; by right). reflexivity.
Qed.

Lemma mapM_result_inv (f : A -> result B) (l : list A) (k : list B) :
  mapM f l = Ok k -> Forall2 (fun a b => f a = Ok b) l k.
Proof.
  revert k. induction l as [|a l IH]; intros k; cbn.
  - intros [= <-]. constructor.
  - destruct (f a) as [b|e] eqn:Hb; cbn; [|discriminate].
    destruct (mapM f l) as [k'|e]; cbn; [|discriminate].
    intros [= <-]. constructor; auto.
Qed.
End result_facts.

Lemma filter_lt_seqZ (k m n : Z) :
  filter (fun f => f < k) (seqZ m n) = seqZ m (Z.min n (k - m)).
Proof.
  destruct (decide (n <= 0)) as [Hn|Hn].
  { rewrite !seqZ_nil by lia. reflexivity. }
  remember (Z.to_nat n) as c eqn:Hc.
  revert m n Hn Hc. induction c as [|c IH]; intros m n Hn Hc; [lia|].
  rewrite (seqZ_cons m n) by lia. rewrite filter_cons.
  destruct (decide (n - 1 <= 0)) as [H1|H1].
  - rewrite (seqZ_nil _ (Z.pred n)) by lia. rewrite filter_nil.
    case_decide.
    + rewrite seqZ_cons by lia. rewrite seqZ_nil by lia. reflexivity.
    + rewrite seqZ_nil by lia. reflexivity.
  - rewrite (IH (Z.succ m) (Z.pred n)) by lia.
    case_decide.
    + rewrite (seqZ_cons m (Z.min n (k - m))) by lia.
      f_equal. f_equal. lia.
    + rewrite !seqZ_nil by lia. reflexivity.
Qed.

Lemma np_getitem_nonneg {A} (a : list A) (i : Z) (d : A) :
  0 <= i -> a !! Z.to_nat i = Some d -> np_getitem a i = Ok d.
Proof.
  intros Hi Hd. unfold np_getitem.
  apply lookup_lt_Some in Hd as Hlt.
  replace (i <? 0) with false by lia.
  replace ((0 <=? i) && (i <? Z.of_nat (length a))) with true by lia.
  rewrite Hd. reflexivity.
Qed.

Lemma lookup_bind_uniform {A B} (g : A -> list B) (m : nat) (l : list A)
    (i j : nat) (a : A) :
  (forall a', length (g a') = m) -> l !! i = Some a -> (j < m)%nat ->
  (l ≫= g) !! (i * m + j)%nat = g a !! j.
Proof.
  intros Hg. revert i. induction l as [|a' l IH]; intros i Hi Hj; [done|].
  rewrite bind_cons. destruct i as [|i]; cbn in Hi.
  - injection Hi as ->. rewrite lookup_app_l by (rewrite Hg; lia). reflexivity.
  - rewrite lookup_app_r by (rewrite Hg; lia). rewrite Hg.
    replace (S i * m + j - m)%nat with (i * m + j)%nat by lia.
    by apply IH.
Qed.

Lemma length_bind_uniform {A B} (g : A -> list B) (m : nat) (l : list A) :
  (forall a', length (g a') = m) -> length (l ≫= g) = (length l * m)%nat.
Proof.
  intros Hg. induction l as [|a l IH]; [done|].
  rewrite bind_cons, length_app, Hg, IH. cbn. lia.
Qed.

(** ** The lookup table: what the generator yields *)

Section lookup_table.
Import LookupTable.
Implicit Types (basins : list string) (dates : list Z) (rho w : Z).

Lemma np_getitem_nonneg_inv {A} (a : list A) (i : Z) (d : A) :
  0 <= i -> np_getitem a i = Ok d ->
  i < Z.of_nat (length a) /\ a !! Z.to_nat i = Some d.
Proof.
  intros Hi. unfold np_getitem.
  replace (i <? 0) with false by lia.
  destruct (Z.ltb_spec i (Z.of_nat (length a))) as [Hlt|Hge].
  - replace (0 <=? i) with true by lia. cbn.
    destruct (a !! Z.to_nat i) as [d'|]; cbn; [|discriminate].
    intros [= <-]. done.
  - rewrite andb_false_r. discriminate.
Qed.

Lemma extend_basins_app basins dates rho w (g : string -> list (string * Z))
    (acc : list (string * Z)) :
  (forall b, b ∈ basins -> basin_entries b dates rho w = Ok (g b)) ->
  extend_basins basins dates rho w acc = Ok (acc ++ (basins ≫= g)).
Proof.
  revert acc. induction basins as [|b basins IH]; intros acc Hg; cbn.
  - by rewrite app_nil_r.
  - rewrite (Hg b) by left. cbn.
    rewrite IH by (intros; apply Hg; by right).
    by rewrite <- app_assoc.
Qed.

Lemma extend_basins_inv basins dates rho w (acc l : list (string * Z)) :
  extend_basins basins dates rho w acc = Ok l ->
  exists ess, Forall2 (fun b es => basin_entries b dates rho w = Ok es) basins ess
              /\ l = acc ++ mjoin ess.
Proof.
  revert acc. induction basins as [|b basins IH]; intros acc; cbn.
  - intros [= <-]. exists []. split; [constructor|]. by rewrite app_nil_r.
  - destruct (basin_entries b dates rho w) as [es|e] eqn:Hes; cbn; [|discriminate].
    intros (ess & Hess & ->)%IH. exists (es :: ess). split; [by constructor|].
    cbn. by rewrite <- app_assoc.
Qed.

(** The indices that pass the filter of the generator. *)
Lemma generator_indices dates rho w :
  let nt := Z.of_nat (length dates) in
  filter (fun f => f < nt - rho + 1) (py_range w nt)
  = seqZ w (Z.min (nt - w) (nt - rho + 1 - w)).
Proof. cbn. unfold py_range. apply filter_lt_seqZ. Qed.

Lemma generator_indices_window dates rho w :
  1 <= rho ->
  let nt := Z.of_nat (length dates) in
  filter (fun f => f < nt - rho + 1) (py_range w nt) = window_starts nt rho w.
Proof.
  intros Hrho. cbn. rewrite generator_indices. unfold window_starts.
  f_equal. lia.
Qed.

Lemma basin_entries_window b dates rho w :
  1 <= rho -> 0 <= w ->
  basin_entries b dates rho w
  = Ok ((fun f => (b, dates !!! Z.to_nat f))
          <$> window_starts (Z.of_nat (length dates)) rho w).
Proof.
  intros Hrho Hw. unfold basin_entries.
  rewrite generator_indices_window by done.
  apply mapM_result_fmap. intros f Hf.
  unfold window_starts in Hf. apply elem_of_seqZ in Hf.
  assert (Z.to_nat f < length dates)%nat as Hlt by lia.
  apply lookup_lt_is_Some in Hlt as [d Hd].
  rewrite (np_getitem_nonneg dates f d) by (done || lia). cbn.
  by rewrite (list_lookup_total_correct _ _ _ Hd).
Qed.

Lemma basin_entries_none b dates rho w :
  rho > Z.of_nat (length dates) - w -> basin_entries b dates rho w = Ok [].
Proof.
  intros Hrho. unfold basin_entries. rewrite generator_indices.
  rewrite seqZ_nil by lia. reflexivity.
Qed.

Lemma basin_entries_inv b dates rho w es e :
  0 <= w -> basin_entries b dates rho w = Ok es -> e ∈ es ->
  e.1 = b /\ exists f, w <= f /\ f <= Z.of_nat (length dates) - rho
    /\ f < Z.of_nat (length dates) /\ dates !! Z.to_nat f = Some e.2.
Proof.
  intros Hw Hes He. unfold basin_entries in Hes.
  apply mapM_result_inv in Hes.
  apply list_elem_of_lookup in He as [i Hi].
  destruct (Forall2_lookup_r _ _ _ _ _ Hes Hi) as (f & Hf & Hfe).
  apply list_elem_of_lookup_2 in Hf.
  apply list_elem_of_filter in Hf as [Hlt Hf].
  unfold py_range in Hf. apply elem_of_seqZ in Hf.
  destruct (np_getitem dates f) as [d|] eqn:Hd; cbn in Hfe; [|discriminate].
  injection Hfe as <-. cbn.
  apply np_getitem_nonneg_inv in Hd as [? ?]; [|lia].
  split; [done|]. exists f. repeat split; (done || lia).
Qed.

Lemma dict_enumerate_lookup {A} (l : list A) (k : Z) (a : A) :
  dict_enumerate l !! k = Some a <-> 0 <= k /\ l !! Z.to_nat k = Some a.
Proof.
  unfold dict_enumerate. rewrite lookup_map_seqZ_Some.
  rewrite Z.sub_0_r. done.
Qed.

Lemma dict_enumerate_size {A} (l : list A) :
  size (dict_enumerate l) = length l.
Proof.
  unfold dict_enumerate. generalize 0.
  induction l as [|a l IH]; intros s; cbn.
  - apply map_size_empty.
  - rewrite map_size_insert_None; [by rewrite IH|].
    apply lookup_map_seqZ_None. lia.
Qed.

End lookup_table.

(** ** The lookup table: size, order and window bounds *)

#[local] Arguments dict_enumerate : simpl never.
#[local] Arguments LookupTable.window_starts : simpl never.
Section lookup_table.
Import LookupTable.
Implicit Types (basins : list string) (dates : list Z) (rho w : Z).

Lemma create_lookup_table_window basins dates rho w :
  1 <= rho -> 0 <= w ->
  let lookup := basins ≫= (fun b => (fun f => (b, dates !!! Z.to_nat f))
                   <$> window_starts (Z.of_nat (length dates)) rho w) in
  create_lookup_table basins dates rho w
  = Ok {| lookup_table := dict_enumerate lookup;
          num_samples := Z.of_nat (length lookup) |}.
Proof.
  intros Hrho Hw lookup. unfold create_lookup_table.
  rewrite (extend_basins_app _ _ _ _
    (fun b => (fun f => (b, dates !!! Z.to_nat f))
                <$> window_starts (Z.of_nat (length dates)) rho w))
    by (intros; by apply basin_entries_window).
  cbn. by rewrite dict_enumerate_size.
Qed.

Lemma length_window_starts nt rho w :
  length (window_starts nt rho w) = Z.to_nat (nt - rho - w + 1).
Proof. unfold window_starts. apply length_seqZ. Qed.

(** C2: with [ngrid] units, [nt] timestamps, a window length [rho >= 1] and
    a warmup length [w >= 0], the lookup table built at construction has
    exactly [ngrid * (nt - rho - w + 1)] entries when [nt - rho - w + 1 > 0];
    and when [rho > nt - w] every unit contributes no entry and no exception
    is raised (the table is empty). *)
Theorem lookup_table_size basins dates rho w :
  let ngrid := Z.of_nat (length basins) in
  let nt := Z.of_nat (length dates) in
  (1 <= rho -> 0 <= w -> nt - rho - w + 1 > 0 ->
   exists t, create_lookup_table basins dates rho w = Ok t
     /\ Z.of_nat (size (lookup_table t)) = ngrid * (nt - rho - w + 1)
     /\ num_samples t = ngrid * (nt - rho - w + 1))
  /\ (rho > nt - w ->
      (forall b, basin_entries b dates rho w = Ok [])
      /\ exists t, create_lookup_table basins dates rho w = Ok t
           /\ lookup_table t = ∅ /\ num_samples t = 0).
Proof.
  intros ngrid nt. split.
  - intros Hrho Hw Hpos. eexists. split; [by apply create_lookup_table_window|].
    cbn. rewrite dict_enumerate_size.
    rewrite (length_bind_uniform _ (Z.to_nat (nt - rho - w + 1)))
      by (intros; by rewrite length_fmap, length_window_starts).
    subst ngrid nt. split; lia.
  - intros Hrho. split; [intros; by apply basin_entries_none|].
    unfold create_lookup_table.
    rewrite (extend_basins_app _ _ _ _ (fun _ => []))
      by (intros; by apply basin_entries_none).
    cbn. eexists. split; [reflexivity|]. cbn.
    assert (basins ≫= (fun _ : string => @nil (string * Z)) = []) as ->.
    { induction basins; [done|]. by rewrite bind_cons. }
    done.
Qed.

Lemma lookup_table_size_witness :
  (exists t, create_lookup_table ["b0"; "b1"; "b2"]%string (seqZ 0 10) 3 2 = Ok t
     /\ Z.of_nat (size (lookup_table t)) = 18 /\ num_samples t = 18)
  /\ (exists t, create_lookup_table ["b0"; "b1"; "b2"]%string (seqZ 0 10) 9 2 = Ok t
     /\ lookup_table t = ∅ /\ num_samples t = 0).
Proof.
  split.
  - apply (lookup_table_size ["b0"; "b1"; "b2"]%string (seqZ 0 10) 3 2);
      vm_compute; congruence.
  - apply (lookup_table_size ["b0"; "b1"; "b2"]%string (seqZ 0 10) 9 2);
      vm_compute; congruence.
Defined.

(** C3: the lookup table enumerates unit-major and time-minor.  The table is
    [dict(enumerate(...))] of the list that gives, for each unit in the given
    order, the window starts [w, ..., nt - rho] in ascending order; the
    [j]-th start of the [i]-th unit has id [i * m + j], where [m] is the
    number of starts per unit (so id [0] is the earliest window of the first
    unit), and the ids are exactly [0 .. N-1].  The table is a function of the
    unit order, the dates, [rho] and [w]. *)
Theorem lookup_table_order basins dates rho w :
  1 <= rho -> 0 <= w ->
  let nt := Z.of_nat (length dates) in
  let starts := window_starts nt rho w in
  let m := length starts in
  exists t, create_lookup_table basins dates rho w = Ok t
    /\ lookup_table t
       = dict_enumerate
           (basins ≫= (fun b => (fun f => (b, dates !!! Z.to_nat f)) <$> starts))
    /\ (forall j : nat, (j < m)%nat -> starts !! j = Some (w + Z.of_nat j))
    /\ (forall (i j : nat) b, basins !! i = Some b -> (j < m)%nat ->
          lookup_table t !! Z.of_nat (i * m + j)
          = Some (b, dates !!! Z.to_nat (w + Z.of_nat j)))
    /\ (forall k, is_Some (lookup_table t !! k)
                  <-> 0 <= k < Z.of_nat (length basins * m))
    /\ num_samples t = Z.of_nat (length basins * m).
Proof.
  intros Hrho Hw nt starts m.
  pose proof (create_lookup_table_window basins dates rho w Hrho Hw) as Hc.
  cbv zeta in Hc. fold nt in Hc. fold starts in Hc.
  assert (Hstarts : forall j : nat, (j < m)%nat -> starts !! j = Some (w + Z.of_nat j)).
  { intros j Hj. subst starts m. unfold window_starts in *.
    rewrite length_seqZ in Hj. apply lookup_seqZ_lt. lia. }
  clearbody starts.
  assert (Hlen : forall b : string,
    length ((fun f => (b, dates !!! Z.to_nat f)) <$> starts) = m).
  { intros b. by rewrite length_fmap. }
  eexists. split; [exact Hc|]. cbn [lookup_table num_samples].
  split; [done|]. split; [done|]. split; [|split].
  - intros i j b Hi Hj. apply dict_enumerate_lookup. split; [lia|].
    rewrite Nat2Z.id.
    rewrite (lookup_bind_uniform _ m basins i j b) by done.
    rewrite list_lookup_fmap, (Hstarts j Hj). reflexivity.
  - intros k. unfold dict_enumerate. rewrite lookup_map_seqZ_is_Some.
    rewrite (length_bind_uniform _ m) by done. lia.
  - by rewrite (length_bind_uniform _ m).
Qed.

(** An entry of a constructed table names a basin of the list and the date
    at an index [f] of the generator that passed its filter. *)
Lemma create_lookup_table_entry basins dates rho w t k b d :
  0 <= w ->
  create_lookup_table basins dates rho w = Ok t ->
  lookup_table t !! k = Some (b, d) ->
  b ∈ basins
  /\ exists f, dates !! Z.to_nat f = Some d
       /\ w <= f /\ f <= Z.of_nat (length dates) - rho
       /\ f < Z.of_nat (length dates).
Proof.
  intros Hw Ht Hk. unfold create_lookup_table in Ht.
  destruct (extend_basins basins dates rho w []) as [l|e] eqn:Hl; cbn in Ht;
    [|discriminate].
  injection Ht as <-. cbn in Hk.
  apply dict_enumerate_lookup in Hk as [_ Hk].
  apply list_elem_of_lookup_2 in Hk.
  apply extend_basins_inv in Hl as (ess & Hess & ->). cbn in Hk.
  apply list_elem_of_join in Hk as (es & Hk & Hes).
  apply list_elem_of_lookup in Hes as [i Hi].
  destruct (Forall2_lookup_r _ _ _ _ _ Hess Hi) as (b' & Hb' & Hentries).
  destruct (basin_entries_inv _ _ _ _ _ _ Hw Hentries Hk)
    as (Hb & f & ? & ? & ? & ?).
  cbn in *. subst b'. split; [by eapply list_elem_of_lookup_2|].
  exists f. repeat split; (done || lia).
Qed.

(** C4: for every entry [(unit, start)] of a constructed lookup table, the
    start is the date at an index [f] with [w <= f <= nt - rho], so that the
    window [[f - w, f + rho - 1]] lies within the time axis [0 .. nt - 1];
    the unit is one of the given units. *)
Theorem lookup_table_windows_in_range basins dates rho w t :
  0 <= w ->
  create_lookup_table basins dates rho w = Ok t ->
  forall k b d, lookup_table t !! k = Some (b, d) ->
    b ∈ basins
    /\ exists f, dates !! Z.to_nat f = Some d
         /\ w <= f /\ f <= Z.of_nat (length dates) - rho
         /\ 0 <= f - w /\ f + rho - 1 <= Z.of_nat (length dates) - 1.
Proof.
  intros Hw Ht k b d Hk.
  destruct (create_lookup_table_entry _ _ _ _ _ _ _ _ Hw Ht Hk)
    as (Hb & f & Hf & ? & ? & ?).
  split; [done|]. exists f. repeat split; (done || lia).
Qed.

Lemma lookup_table_order_witness :
  exists t,
    create_lookup_table ["b0"; "b1"]%string (seqZ 100 5) 2 1 = Ok t
    /\ lookup_table t !! 0 = Some ("b0"%string, 101)
    /\ lookup_table t !! 4 = Some ("b1"%string, 102)
    /\ num_samples t = 6.
Proof.
  destruct (lookup_table_order ["b0"; "b1"]%string (seqZ 100 5) 2 1)
    as (t & Ht & _ & _ & Hid & _ & Hnum); [lia | lia |].
  exists t. split; [exact Ht|]. split; [|split].
  - apply (Hid 0%nat 0%nat "b0"%string); [reflexivity | vm_compute; lia].
  - apply (Hid 1%nat 1%nat "b1"%string); [reflexivity | vm_compute; lia].
  - exact Hnum.
Defined.

Lemma lookup_table_windows_in_range_witness :
  exists f, seqZ 100 5 !! Z.to_nat f = Some 102 /\ 1 <= f /\ f <= 5 - 2.
Proof.
  destruct (lookup_table_windows_in_range ["b0"; "b1"]%string (seqZ 100 5) 2 1
              {| lookup_table :=
                   dict_enumerate [("b0", 101); ("b0", 102); ("b0", 103);
                                   ("b1", 101); ("b1", 102); ("b1", 103)]%string;
                 num_samples := 6 |}
              ltac:(lia) eq_refl 4 "b1"%string 102 eq_refl)
    as (_ & f & Hf & Hlo & Hhi & _).
  exists f. split; [exact Hf|]. split; [exact Hlo | exact Hhi].
Defined.

End lookup_table.

(** ** The epoch sampler: ceilings and logarithms *)

Section sampler.
Import KuaiSampler.

Lemma Rceil_bounds (r : R) : (r <= IZR (Rceil r) < r + 1)%R.
Proof.
  unfold Rceil. destruct (archimed (- r)) as [H1 H2].
  rewrite minus_IZR. lra.
Qed.

Lemma Rceil_pos (r : R) : (0 < r)%R -> 1 <= Rceil r.
Proof.
  intros Hr. destruct (Rceil_bounds r) as [H1 _].
  assert (0 < IZR (Rceil r))%R as H by lra.
  apply lt_IZR in H. lia.
Qed.



Lemma ln_neg (q : R) : (0 < q < 1)%R -> (ln q < 0)%R.
Proof. intros [H0 H1]. rewrite <- ln_1. by apply ln_increasing. Qed.


(** The argument of the logarithm. *)
Lemma coverage_ratio (p ngrid d : Z) :
  0 < ngrid -> 0 < d ->
  (IZR p / IZR ngrid / IZR d = IZR p / IZR (ngrid * d))%R
  /\ (p < ngrid * d -> (IZR p / IZR ngrid / IZR d < 1)%R)
  /\ (0 < p -> (0 < IZR p / IZR ngrid / IZR d)%R)
  /\ (ngrid * d <= p -> (1 <= IZR p / IZR ngrid / IZR d)%R).
Proof.
  intros Hn Hd.
  assert (0 < IZR ngrid)%R as Hn' by (by apply IZR_lt).
  assert (0 < IZR d)%R as Hd' by (by apply IZR_lt).
  assert (IZR p / IZR ngrid / IZR d = IZR p / IZR (ngrid * d))%R as E.
  { rewrite mult_IZR. field. lra. }
  assert (0 < IZR (ngrid * d))%R as Hnd by (apply IZR_lt; lia).
  split; [done|]. rewrite E. repeat split.
  - intros Hp. apply IZR_lt in Hp.
    apply Rmult_lt_reg_r with (IZR (ngrid * d)); [done|].
    unfold Rdiv. rewrite Rmult_assoc, Rinv_l by lra. lra.
  - intros Hp. apply IZR_lt in Hp. by apply Rdiv_lt_0_compat.
  - intros Hp. apply IZR_le in Hp.
    apply Rmult_le_reg_r with (IZR (ngrid * d)); [done|].
    unfold Rdiv. rewrite Rmult_assoc, Rinv_l by lra. lra.
Qed.

Lemma ln_hundredth_neg : (ln (1 / 100) < 0)%R.
Proof. apply ln_neg. lra. Qed.

Lemma n_iter_ep_covering (b rho ngrid nt w : Z) :
  0 < ngrid -> 0 < nt - w -> 0 < b * rho -> b * rho < ngrid * (nt - w) ->
  n_iter_ep b rho ngrid nt w = Ok (n_iter_spec b rho ngrid nt w)
  /\ 1 <= n_iter_spec b rho ngrid nt w.
Proof.
  intros Hn Hd Hp Hlt.
  destruct (coverage_ratio (b * rho) ngrid (nt - w) Hn Hd) as (E & H1 & H0 & _).
  specialize (H1 Hlt). specialize (H0 Hp).
  unfold n_iter_ep, n_iter_spec.
  replace (ngrid =? 0) with false by lia.
  replace (nt - w =? 0) with false by lia.
  rewrite <- mult_IZR, <- E.
  set (q := (1 - IZR (b * rho) / IZR ngrid / IZR (nt - w))%R) in *.
  assert (0 < q < 1)%R as Hq by (unfold q; lra).
  destruct (Rlt_dec q 0) as [?|_]; [lra|].
  destruct (Req_dec_T q 0) as [?|_]; [lra|].
  destruct (Req_dec_T q 1) as [?|_]; [lra|].
  split; [done|]. apply Rceil_pos.
  pose proof (ln_neg q Hq). pose proof ln_hundredth_neg.
  unfold Rdiv. 
  replace (ln (1 * / 100) * / ln q)%R with ((- ln (1 * / 100)) * / (- ln q))%R
    by (field; lra).
  apply Rmult_lt_0_compat; [unfold Rdiv in *; lra|].
  apply Rinv_0_lt_compat. lra.
Qed.


End sampler.

(** ** The epoch sampler: the shrink loop *)

Section sampler.
Import KuaiSampler.



(** Outside the domain of the claim the loop may spin: with an empty grid
    ([ngrid * nt <= 0]) a batch size of zero is never left. *)
Lemma shrink_diverges (fuel : nat) (rho ngrid nt : Z) :
  ngrid * nt <= 0 -> shrink fuel 0 rho ngrid nt = None.
Proof.
  intros H. induction fuel as [|fuel IH]; [done|]. cbn.
  replace (0 * rho >=? ngrid * nt) with true by lia. exact IH.
Qed.



End sampler.

(** ** The epoch sampler: batch size, iteration count and sampler *)

Section sampler.
Import KuaiSampler.

Lemma shrink_batch_size_floor (fuel : nat) (b rho ngrid nt b' : Z) :
  shrink_batch_size fuel b rho ngrid nt = Some b' -> 1 <= b'.
Proof.
  unfold shrink_batch_size.
  destruct (shrink fuel b rho ngrid nt) as [b0|]; cbn; [|discriminate].
  intros [= <-]. lia.
Qed.

Lemma KuaiSampler_init_covering (fuel : nat) (dlen b w rho ngrid nt b' : Z) :
  shrink_batch_size fuel b rho ngrid nt = Some b' ->
  0 < rho -> 0 < ngrid -> 0 < nt - w -> b' * rho < ngrid * (nt - w) ->
  KuaiSampler_init fuel dlen b w rho ngrid nt
  = Some (Ok (RandomSampler_init dlen (n_iter_spec b' rho ngrid nt w * b')))
  /\ 1 <= n_iter_spec b' rho ngrid nt w.
Proof.
  intros Hb Hrho Hn Hd Hlt.
  pose proof (shrink_batch_size_floor _ _ _ _ _ _ Hb) as Hb1.
  destruct (n_iter_ep_covering b' rho ngrid nt w) as [Hiter Hge]; [lia..|].
  split; [|done].
  unfold KuaiSampler_init. rewrite Hb. cbn [mbind option_bind].
  unfold KuaiSampler_sample_count. rewrite Hiter. cbn [mbind result_bind].
  replace (n_iter_spec b' rho ngrid nt w >=? 1) with true by lia.
  reflexivity.
Qed.







End sampler.

(** ** Arrays: label slices of a daily axis *)

Section arrays.
Import Arrays.

Lemma slice_positions_daily (n : nat) (d lo hi : Z) (k : nat) :
  slice_positions (seqZ d (Z.of_nat n)) lo hi k
  = seq (k + Z.to_nat (Z.max lo d - d))
        (Z.to_nat (Z.min hi (d + Z.of_nat n - 1) - Z.max lo d + 1)).
Proof.
  revert d k. induction n as [|n IH]; intros d k.
  - replace (Z.to_nat (Z.min hi (d + Z.of_nat 0 - 1) - Z.max lo d + 1))
      with 0%nat by lia.
    done.
  - rewrite seqZ_cons by lia. cbn [slice_positions].
    replace (Z.pred (Z.of_nat (S n))) with (Z.of_nat n) by lia.
    rewrite IH. case_bool_decide as Hin.
    + replace (Z.to_nat (Z.min hi (d + Z.of_nat (S n) - 1) - Z.max lo d + 1))
        with (S (Z.to_nat (Z.min hi (Z.succ d + Z.of_nat n - 1)
                           - Z.max lo (Z.succ d) + 1))) by lia.
      cbn [seq]. f_equal; [lia|]. f_equal. lia.
    + destruct (decide (d < lo)).
      * f_equal; lia.
      * replace (Z.to_nat (Z.min hi (Z.succ d + Z.of_nat n - 1)
                           - Z.max lo (Z.succ d) + 1)) with 0%nat by lia.
        replace (Z.to_nat (Z.min hi (d + Z.of_nat (S n) - 1) - Z.max lo d + 1))
          with 0%nat by lia.
        done.
Qed.

Lemma slice_positions_window (d nt lo hi : Z) :
  d <= lo -> lo <= hi + 1 -> hi <= d + nt - 1 ->
  slice_positions (seqZ d nt) lo hi 0
  = seq (Z.to_nat (lo - d)) (Z.to_nat (hi - lo + 1)).
Proof.
  intros H1 H2 H3.
  destruct (decide (0 <= nt)) as [Hnt|Hnt].
  - rewrite <- (Z2Nat.id nt) at 1 by done. rewrite slice_positions_daily.
    f_equal; lia.
  - rewrite seqZ_nil by lia. cbn. replace (Z.to_nat (hi - lo + 1)) with 0%nat by lia.
    done.
Qed.

Lemma index_of_elem (label : string) (coord : list string) :
  label ∈ coord -> exists i, index_of label coord = Ok i /\ coord !! i = Some label.
Proof.
  intros Hin. unfold index_of.
  destruct (list_find (fun l => l = label) coord) as [[i l]|] eqn:Hf.
  - apply list_find_Some in Hf as (Hi & -> & _). by exists i.
  - apply list_find_None in Hf. rewrite Forall_forall in Hf.
    by destruct (Hf label Hin).
Qed.

End arrays.

(** ** Indexed access in train mode *)

Section facade.
Import Arrays Dataset.
Context {V W : Type} (cast : V -> W).
Implicit Types (self : BaseDataset V).

Lemma constructed_table self :
  constructed self ->
  LookupTable.create_lookup_table (sites_id self) (da_time (y self))
    (rho self) (warmup_length self)
  = Ok {| LookupTable.lookup_table := lookup_table self;
          LookupTable.num_samples := num_samples self |}.
Proof.
  intros [self0 H]. unfold BaseDataset_create_lookup_table in H.
  destruct (LookupTable.create_lookup_table _ _ _ _) as [t|e] eqn:E;
    cbn in H; [|discriminate].
  injection H as <-. cbn [sites_id y rho warmup_length lookup_table num_samples].
  rewrite E. by destruct t.
Qed.

Lemma constructed_entry self d0 nt item basin time :
  constructed self -> daily_grid self d0 nt -> 0 <= warmup_length self ->
  lookup_table self !! item = Some (basin, time) ->
  basin ∈ sites_id self
  /\ exists f, time = d0 + f /\ warmup_length self <= f /\ f <= nt - rho self.
Proof.
  intros Hc (_ & _ & Hy & _) Hw Hitem.
  apply constructed_table in Hc.
  destruct (create_lookup_table_entry _ _ _ _ _ _ _ _ Hw Hc Hitem)
    as (Hb & f & Hf & ? & ? & _).
  split; [done|]. exists f.
  rewrite Hy in *. apply lookup_seqZ in Hf as [-> ?].
  rewrite length_seqZ in *. lia.
Qed.

Lemma getitem_train self d0 nt item basin time :
  train_mode self = true ->
  constructed self -> daily_grid self d0 nt ->
  0 <= warmup_length self -> 1 <= rho self ->
  lookup_table self !! item = Some (basin, time) ->
  exists (f : Z) (i : nat) X Y,
    time = d0 + f /\ warmup_length self <= f /\ f <= nt - rho self
    /\ sites_id self !! i = Some basin
    /\ BaseDataset_getitem cast self item = Ok (X, Y)
    /\ shape0 X = Z.to_nat (warmup_length self + rho self)
    /\ (forall k v : nat,
          (k < Z.to_nat (warmup_length self + rho self))%nat ->
          (v < length (da_variable (x self)))%nat ->
          item2 X k v
          = cast (da_values (x self) v i (Z.to_nat (f - warmup_length self) + k)))
    /\ match has_attributes self with
       | None => shape1 X = length (da_variable (x self))
       | Some ca =>
           shape1 X = (length (da_variable (x self)) + length (c_variable ca))%nat
           /\ forall k u : nat,
                item2 X k (length (da_variable (x self)) + u)
                = cast (c_values ca u i)
       end
    /\ shape0 Y = Z.to_nat (rho self)
    /\ shape1 Y = length (da_variable (y self))
    /\ (forall k v : nat, (k < Z.to_nat (rho self))%nat ->
          item2 Y k v = cast (da_values (y self) v i (Z.to_nat f + k))).
Proof.
  intros Htrain Hc Hgrid Hw Hrho Hitem.
  destruct (constructed_entry _ _ _ _ _ _ Hc Hgrid Hw Hitem)
    as (Hb & f & -> & Hf1 & Hf2).
  destruct Hgrid as (Hnd & Hxt & Hyt & Hxb & Hyb & Hcb).
  destruct (index_of_elem _ _ Hb) as (i & Hi & Hsite).
  exists f, i.
  unfold BaseDataset_getitem. rewrite Htrain. cbn [negb].
  unfold dict_getitem. rewrite Hitem. cbn [or_raise mbind result_bind].
  unfold sel_basin_time. rewrite Hxb, Hyb, Hi, Hxt, Hyt.
  cbn [mbind result_bind mret result_ret fmap result_fmap].
  rewrite !slice_positions_window by lia.
  replace (d0 + f - warmup_length self - d0) with (f - warmup_length self) by lia.
  replace (d0 + f + (rho self - 1) - (d0 + f - warmup_length self) + 1)
    with (warmup_length self + rho self) by lia.
  replace (d0 + f - d0) with f by lia.
  replace (d0 + f + (rho self - 1) - (d0 + f) + 1) with (rho self) by lia.
  unfold has_attributes.
  destruct (c self) as [ca|] eqn:Hca.
  - rewrite (Hcb ca eq_refl).
    destruct (Nat.ltb_spec 0 (length (sites_id self))) as [Hlen|Hlen].
    + unfold sel_basin_attr. rewrite (Hcb ca eq_refl), Hi.
      cbn [mbind result_bind mret result_ret].
      unfold np_tile_rows. replace (_ <? 0) with false by lia.
      cbn [mbind result_bind].
      unfold np_concatenate_axis1. cbn [np_T shape0 shape1 item2].
      rewrite !length_seq, Nat.eqb_refl. cbn [mbind result_bind mret result_ret].
      eexists _, _. repeat split; try done; cbn -[Nat.ltb]; intros;
        repeat match goal with
               | |- context [(?a <? ?b)%nat] =>
                   destruct (Nat.ltb_spec a b); try lia
               end;
        rewrite ?seq_nth by lia; try done.
      do 2 f_equal. lia.
    + apply list_elem_of_lookup_2 in Hsite. destruct (sites_id self); [|cbn in Hlen; lia].
      by apply elem_of_nil in Hsite.
  - cbn [mbind result_bind mret result_ret].
    rewrite !length_seq.
    eexists _, _. repeat split; try done; cbn; intros;
      rewrite ?seq_nth by lia; done.
Qed.

End facade.

(** ** Indexed access: the window and the single-flow variant *)

Section facade.
Import Arrays Dataset.
Context {V W : Type} (cast : V -> W).
Implicit Types (self : BaseDataset V).

(** C7: in train mode, for a dataset as built by the constructor over a
    daily grid (warmup [w >= 0], window [rho >= 1]), indexed access at an id
    whose lookup entry is [(basin, time)], with [time] the day of index [f],
    returns an input of [w + rho] rows, row [k] holding the normalised
    forcing of the basin on day index [f - w + k], followed, when static
    attributes are present and non-empty, by the attributes of the basin (the
    same in every row); and a target of [rho] rows, row [k] holding the
    normalised target on day index [f + k]: the target starts after the
    warmup.  Both are cast to float32. *)
Theorem getitem_train_window self d0 nt item basin time :
  train_mode self = true ->
  constructed self -> daily_grid self d0 nt ->
  0 <= warmup_length self -> 1 <= rho self ->
  lookup_table self !! item = Some (basin, time) ->
  exists (f : Z) (i : nat) X Y,
    time = d0 + f /\ warmup_length self <= f /\ f <= nt - rho self
    /\ sites_id self !! i = Some basin
    /\ BaseDataset_getitem cast self item = Ok (X, Y)
    /\ shape0 X = Z.to_nat (warmup_length self + rho self)
    /\ (forall k v : nat,
          (k < Z.to_nat (warmup_length self + rho self))%nat ->
          (v < length (da_variable (x self)))%nat ->
          item2 X k v
          = cast (da_values (x self) v i (Z.to_nat (f - warmup_length self) + k)))
    /\ match has_attributes self with
       | None => shape1 X = length (da_variable (x self))
       | Some ca =>
           shape1 X = (length (da_variable (x self)) + length (c_variable ca))%nat
           /\ forall k u : nat,
                item2 X k (length (da_variable (x self)) + u)
                = cast (c_values ca u i)
       end
    /\ shape0 Y = Z.to_nat (rho self)
    /\ shape1 Y = length (da_variable (y self))
    /\ (forall k v : nat, (k < Z.to_nat (rho self))%nat ->
          item2 Y k v = cast (da_values (y self) v i (Z.to_nat f + k))).
Proof. apply getitem_train. Qed.

Lemma constructed_num_samples self :
  constructed self -> num_samples self = Z.of_nat (size (lookup_table self)).
Proof.
  intros Hc%constructed_table. unfold LookupTable.create_lookup_table in Hc.
  destruct (LookupTable.extend_basins _ _ _ _ _) as [l|e]; cbn in Hc; [|discriminate].
  by injection Hc as <- <-.
Qed.

(** C10: whenever the base dataset returns [(X, Ys)] at an index, in either
    mode, [BasinSingleFlowDataset] returns the same [X] and the last row of
    [Ys], and it raises what the base raises; in train mode at an id of the
    lookup table (daily grid, [w >= 0], [rho >= 1]) that row is the row of
    index [rho - 1] of the target window; and its length is [num_samples],
    the size of the lookup table, whatever the mode. *)
Theorem single_flow_getitem_len self :
  (forall index X Ys,
     BaseDataset_getitem cast self index = Ok (X, Ys) ->
     (0 < shape0 Ys)%nat ->
     exists y1, BasinSingleFlowDataset_getitem cast self index = Ok (X, y1)
       /\ size1 y1 = shape1 Ys
       /\ forall j, item1 y1 j = item2 Ys (shape0 Ys - 1) j)
  /\ (forall index e,
        BaseDataset_getitem cast self index = Raise e ->
        BasinSingleFlowDataset_getitem cast self index = Raise e)
  /\ (forall d0 nt index basin time,
        train_mode self = true ->
        constructed self -> daily_grid self d0 nt ->
        0 <= warmup_length self -> 1 <= rho self ->
        lookup_table self !! index = Some (basin, time) ->
        exists X Ys y1,
          BaseDataset_getitem cast self index = Ok (X, Ys)
          /\ BasinSingleFlowDataset_getitem cast self index = Ok (X, y1)
          /\ shape0 Ys = Z.to_nat (rho self)
          /\ size1 y1 = shape1 Ys
          /\ forall j, item1 y1 j = item2 Ys (Z.to_nat (rho self - 1)) j)
  /\ BasinSingleFlowDataset_len self = num_samples self
  /\ (constructed self ->
      BasinSingleFlowDataset_len self = Z.of_nat (size (lookup_table self))).
Proof.
  assert (Hgen : forall index X Ys,
     BaseDataset_getitem cast self index = Ok (X, Ys) ->
     (0 < shape0 Ys)%nat ->
     exists y1, BasinSingleFlowDataset_getitem cast self index = Ok (X, y1)
       /\ size1 y1 = shape1 Ys
       /\ forall j, item1 y1 j = item2 Ys (shape0 Ys - 1) j).
  { intros index X Ys Hbase Hrows. unfold BasinSingleFlowDataset_getitem.
    rewrite Hbase. cbn [mbind result_bind]. unfold last_row.
    destruct (Nat.eqb_spec (shape0 Ys) 0) as [|_]; [lia|].
    cbn. eexists. by repeat split. }
  split; [exact Hgen|]. split; [|split; [|split]].
  - intros index e Hbase. unfold BasinSingleFlowDataset_getitem.
    by rewrite Hbase.
  - intros d0 nt index basin time Htrain Hc Hgrid Hw Hrho Hitem.
    destruct (getitem_train cast _ _ _ _ _ _ Htrain Hc Hgrid Hw Hrho Hitem)
      as (f & i & X & Ys & _ & _ & _ & _ & Hbase & _ & _ & _ & Hrows & _).
    destruct (Hgen index X Ys Hbase) as (y1 & Hsingle & Hsize & Hlast); [lia|].
    exists X, Ys, y1. repeat split; try done.
    intros j. rewrite Hlast, Hrows. f_equal. lia.
  - reflexivity.
  - apply constructed_num_samples.
Qed.

End facade.

Section demo.
Import Arrays Dataset Demo.

(** The entries of the demonstration table, in the order of their ids. *)
Lemma demo_extend_basins :
  LookupTable.extend_basins ["b0"; "b1"]%string (da_time demo_y) 2 1 []
  = Ok [("b0", 101); ("b0", 102); ("b0", 103);
        ("b1", 101); ("b1", 102); ("b1", 103)]%string.
Proof. by vm_compute. Qed.

Lemma demo_constructed (train : bool) : constructed (demo_dataset train).
Proof.
  exists (demo_loaded train).
  unfold BaseDataset_create_lookup_table, LookupTable.create_lookup_table.
  cbn [demo_loaded sites_id y rho warmup_length].
  rewrite demo_extend_basins. cbn [mbind result_bind mret result_ret].
  cbv zeta. rewrite dict_enumerate_size. reflexivity.
Qed.

Lemma demo_init (target_as_input : bool) (loader_type : string) :
  loader_type ∈ ["train"; "valid"; "test"]%string ->
  BaseDataset_init demo_source (demo_params target_as_input) loader_type
  = Ok (demo_dataset (bool_decide (loader_type = "train"%string))).
Proof.
  intros Hlt. unfold BaseDataset_init, BaseDataset_load_data.
  rewrite bool_decide_eq_true_2 by done.
  unfold BaseDataset_create_lookup_table, LookupTable.create_lookup_table.
  cbn [demo_source demo_params mbind result_bind mret result_ret
       s_sites_id s_x s_y s_c sites_id y rho warmup_length
       forecast_history dp_warmup_length].
  rewrite demo_extend_basins. cbn [mbind result_bind mret result_ret].
  cbv zeta. rewrite dict_enumerate_size. reflexivity.
Qed.

Lemma demo_daily_grid (train : bool) : daily_grid (demo_dataset train) 100 5.
Proof.
  repeat split; try reflexivity.
  - cbn. apply (bool_decide_unpack _). by vm_compute.
  - by intros ca [= <-].
Qed.

Lemma getitem_train_window_witness :
  exists X Y,
    BaseDataset_getitem (fun z : Z => z) (demo_dataset true) 4 = Ok (X, Y)
    /\ rows X = [[1011; 1111; 3010]; [1012; 1112; 3010]; [1013; 1113; 3010]]
    /\ rows Y = [[2012]; [2013]].
Proof.
  destruct (getitem_train_window (fun z : Z => z) (demo_dataset true) 100 5 4 "b1" 102)
    as (f & i & X & Y & Hf & _ & _ & _ & Hget & _);
    [reflexivity | apply demo_constructed | apply demo_daily_grid
    | cbn; lia | cbn; lia | reflexivity | ].
  exists X, Y. split; [exact Hget|].
  assert (Hrows :
            match BaseDataset_getitem (fun z : Z => z) (demo_dataset true) 4 with
            | Ok (X, Y) =>
                rows X = [[1011; 1111; 3010]; [1012; 1112; 3010];
                          [1013; 1113; 3010]]
                /\ rows Y = [[2012]; [2013]]
            | Raise _ => True
            end) by (by vm_compute).
  rewrite Hget in Hrows. exact Hrows.
Defined.

Lemma single_flow_getitem_len_witness :
  exists X Ys y1,
    BaseDataset_getitem (fun z : Z => z) (demo_dataset true) 4 = Ok (X, Ys)
    /\ BasinSingleFlowDataset_getitem (fun z : Z => z) (demo_dataset true) 4
       = Ok (X, y1)
    /\ rows Ys = [[2012]; [2013]]
    /\ entries y1 = [2013]
    /\ BasinSingleFlowDataset_len (demo_dataset false) = 6.
Proof.
  destruct (single_flow_getitem_len (fun z : Z => z) (demo_dataset true))
    as (_ & _ & Htrain & _ & _).
  destruct (single_flow_getitem_len (fun z : Z => z) (demo_dataset false))
    as (_ & _ & _ & _ & Hlen).
  destruct (Htrain 100 5 4 "b1"%string 102)
    as (X & Ys & y1 & Hbase & Hsingle & _);
    [reflexivity | apply demo_constructed | apply demo_daily_grid
    | cbn; lia | cbn; lia | reflexivity | ].
  exists X, Ys, y1. split; [exact Hbase|]. split; [exact Hsingle|].
  assert (Hrows :
            match BaseDataset_getitem (fun z : Z => z) (demo_dataset true) 4 with
            | Ok (_, Ys) => rows Ys = [[2012]; [2013]]
            | Raise _ => True
            end) by (by vm_compute).
  assert (Hlast :
            match BasinSingleFlowDataset_getitem (fun z : Z => z)
                    (demo_dataset true) 4 with
            | Ok (_, y1) => entries y1 = [2013]
            | Raise _ => True
            end) by (by vm_compute).
  rewrite Hbase in Hrows. rewrite Hsingle in Hlast.
  split; [exact Hrows|]. split; [exact Hlast|].
  rewrite (Hlen (demo_constructed false)).
  cbn [demo_dataset lookup_table]. rewrite dict_enumerate_size. reflexivity.
Defined.

End demo.

(** ** The physically-constrained variant *)

Section dpl.
Import Arrays Dataset Dpl.
Context {V : Type}.
Variable source : string -> result (scaled V).
Variable params : data_params.

Lemma BaseDataset_init_train_mode (loader_type : string) (b : BaseDataset V) :
  BaseDataset_init source params loader_type = Ok b ->
  train_mode b = bool_decide (loader_type = "train"%string).
Proof.
  unfold BaseDataset_init, BaseDataset_load_data, BaseDataset_create_lookup_table.
  case_bool_decide; [|discriminate].
  destruct (source loader_type) as [s|e]; cbn [mbind result_bind]; [|discriminate].
  match goal with
  | |- context [LookupTable.create_lookup_table ?a ?b ?c ?d] =>
      destruct (LookupTable.create_lookup_table a b c d) as [t|e]
  end; cbn [mbind result_bind mret result_ret]; [|discriminate].
  by intros [= <-].
Qed.

(** In inference mode with the target used as input the constructor builds
    a training-mode instance of the same class and keeps it. *)
Lemma DplDataset_init_holds_train (loader_type : string) (b bt : BaseDataset V)
    (fuel : nat) :
  dp_target_as_input params = true ->
  loader_type <> "train"%string ->
  BaseDataset_init source params loader_type = Ok b ->
  BaseDataset_init source params "train" = Ok bt ->
  (2 <= fuel)%nat ->
  exists ds td,
    DplDataset_init source params fuel loader_type = Some (Ok ds)
    /\ train_dataset ds = Some td
    /\ target_as_input ds = true
    /\ train_mode (base ds) = false
    /\ train_mode (base td) = true
    /\ train_dataset td = None.
Proof.
  intros Htai Hlt Hb Hbt Hfuel.
  destruct fuel as [|[|fuel]]; [lia|lia|].
  pose proof (BaseDataset_init_train_mode _ _ Hb) as Hmode.
  pose proof (BaseDataset_init_train_mode _ _ Hbt) as Hmodet.
  rewrite bool_decide_eq_false_2 in Hmode by done.
  rewrite bool_decide_eq_true_2 in Hmodet by done.
  cbn [DplDataset_init]. rewrite Hb, Hbt. cbn [train_mode].
  rewrite Htai, Hmode, Hmodet. cbn [negb andb].
  eexists _, _. repeat split; done.
Qed.

Lemma py_getattr_sel : py_getattr DplDataset_attributes "sel" = Raise AttributeError.
Proof. by vm_compute. Qed.

(** C9: in inference mode with the target used as input, indexed access
    never returns: once the basin is found the method evaluates
    [self.train_dataset.sel], and a [DplDataset] has no attribute [sel], so
    it ends with [AttributeError] whatever the remainder of the method is.
    The target history of the training-mode instance is never read. *)
Theorem DplDataset_getitem_inference_raises {Res : Type}
    (rest : DplDataset V -> Z -> ndarray2 V -> result Res)
    (self : DplDataset V) (item : Z) :
  target_as_input self = true ->
  (forall r, DplDataset_getitem_inference rest self item <> Ok r)
  /\ (forall basin,
        np_getitem (sites_id (base self)) item = Ok basin ->
        basin ∈ da_basin (x (base self)) ->
        DplDataset_getitem_inference rest self item = Raise AttributeError).
Proof.
  intros Htai. unfold DplDataset_getitem_inference, DplDataset_getitem_x_norm.
  rewrite Htai, py_getattr_sel. split.
  - intros r. destruct (np_getitem _ _) as [basin|e]; cbn; [|discriminate].
    destruct (sel_basin _ _) as [a|e]; cbn; discriminate.
  - intros basin -> Hin. cbn. unfold sel_basin.
    destruct (index_of_elem _ _ Hin) as (i & -> & _). reflexivity.
Qed.

End dpl.

Section demo.
Import Arrays Dataset Dpl Demo.

Lemma DplDataset_getitem_inference_raises_witness :
  exists ds td,
    DplDataset_init demo_source (demo_params true) 2 "test" = Some (Ok ds)
    /\ train_dataset ds = Some td /\ train_mode (base td) = true
    /\ DplDataset_getitem_inference (fun _ _ a => Ok a) ds 0 = Raise AttributeError.
Proof.
  destruct (DplDataset_init_holds_train demo_source (demo_params true) "test"
              (demo_dataset false) (demo_dataset true) 2)
    as (ds & td & Hinit & Htd & Htai & _ & Htrain & _);
    [reflexivity | discriminate
    | apply (demo_init true "test"); apply (bool_decide_unpack _); by vm_compute
    | apply (demo_init true "train"); apply (bool_decide_unpack _);
      by vm_compute
    | lia |].
  exists ds, td. repeat split; try done.
  assert (Hsites :
            match DplDataset_init demo_source (demo_params true) 2 "test" with
            | Some (Ok ds) =>
                np_getitem (sites_id (base ds)) 0 = Ok "b0"%string
                /\ da_basin (x (base ds)) = ["b0"; "b1"]%string
            | _ => True
            end) by (by vm_compute).
  rewrite Hinit in Hsites. destruct Hsites as [Hbasin Hcoord].
  apply (DplDataset_getitem_inference_raises (fun _ _ a => Ok a) ds 0 Htai) with "b0"%string.
  - exact Hbasin.
  - rewrite Hcoord. apply list_elem_of_here.
Defined.
End demo.

(** ** Persistence: the loading branch *)

Section persistence.
Import Persistence.

Ltac io_unfold :=
  unfold copy_assigned, shutil_copy, os_path_isfile, read_file, write_file,
    io_lift, io_raise, py_assert, or_raise;
  unfold mbind, io_bind, mret, io_ret.

Lemma DapengScaler_init_reuse {Data StatDict : Type}
    (cal_stat_all : Data -> StatDict) (json_dump : StatDict -> string)
    (json_load : string -> result StatDict)
    (data : Data) (params : scaler_params) (loader_type : string) (fs : files) :
  fits_here params loader_type = false ->
  DapengScaler_init cal_stat_all json_dump json_load data params loader_type fs
  = match reuse_outcome AssertionError params (stat_file_of params) fs with
    | (fs', Ok content) => (fs', json_load content)
    | (fs', Raise e) => (fs', Raise e)
    end.
Proof.
  intros Hfit. unfold DapengScaler_init, reuse_outcome. rewrite Hfit.
  cbv zeta. io_unfold.
  destruct (stat_dict_file params) as [f|].
  - destruct (fs !! f) as [content|] eqn:Hf; [|done].
    case_bool_decide; [done|].
    rewrite lookup_insert_eq.
    rewrite (bool_decide_eq_true_2 (is_Some (Some content))) by eauto. done.
  - destruct (fs !! stat_file_of params) as [content|] eqn:Hs.
    + rewrite (bool_decide_eq_true_2 (is_Some (Some content))) by eauto. done.
    + rewrite (bool_decide_eq_false_2 (is_Some (@None string)))
          by (by intros [? ?]).
        done.
Qed.

Lemma ScalerHub_group_reuse {Arr Scaler : Type} (ndim : Arr -> nat)
    (reshape2 : Arr -> Arr) (reshape3 : Arr -> Arr -> Arr)
    (fit : Arr -> Scaler) (transform : Scaler -> Arr -> Arr)
    (pkl_dump : Scaler -> string) (pkl_load : string -> result Scaler)
    (params : scaler_params) (loader_type key : string) (data_tmp : Arr)
    (fs : files) :
  fits_here params loader_type = false ->
  ScalerHub_group ndim reshape2 reshape3 fit transform pkl_dump pkl_load
    params loader_type key data_tmp fs
  = let absent := if (ndim data_tmp =? 3)%nat then FileNotFoundError
                  else AssertionError in
    match reuse_outcome absent params (save_file_of params key) fs with
    | (fs', Ok content) =>
        (fs',
         scaler ← pkl_load content;
         mret (if (ndim data_tmp =? 3)%nat
               then reshape3 data_tmp (transform scaler (reshape2 data_tmp))
               else transform scaler data_tmp, scaler))
    | (fs', Raise e) => (fs', Raise e)
    end.
Proof.
  intros Hfit. unfold ScalerHub_group, reuse_outcome. rewrite Hfit.
  cbv zeta. io_unfold.
  destruct (ndim data_tmp =? 3)%nat.
  - destruct (stat_dict_file params) as [f|].
    + destruct (fs !! f) as [content|] eqn:Hf; [|done].
      case_bool_decide; [done|].
      rewrite lookup_insert_eq.
      rewrite (bool_decide_eq_true_2 (is_Some (Some content))) by eauto. cbn [negb].
      rewrite ?lookup_insert_eq; unfold result_bind, result_ret;
        try match goal with Hs : _ !! _ = Some _ |- _ => rewrite ?Hs end;
        by destruct (pkl_load content).
    + destruct (fs !! save_file_of params key) as [content|] eqn:Hs.
      * rewrite (bool_decide_eq_true_2 (is_Some (Some content))) by eauto. cbn [negb].
        rewrite ?lookup_insert_eq; unfold result_bind, result_ret;
        try match goal with Hs : _ !! _ = Some _ |- _ => rewrite ?Hs end;
        by destruct (pkl_load content).
      * rewrite (bool_decide_eq_false_2 (is_Some (@None string)))
          by (by intros [? ?]).
        done.
  - destruct (stat_dict_file params) as [f|].
    + destruct (fs !! f) as [content|] eqn:Hf; [|done].
      case_bool_decide; [done|].
      rewrite lookup_insert_eq.
      rewrite (bool_decide_eq_true_2 (is_Some (Some content))) by eauto.
      rewrite ?lookup_insert_eq; unfold result_bind, result_ret;
        try match goal with Hs : _ !! _ = Some _ |- _ => rewrite ?Hs end;
        by destruct (pkl_load content).
    + destruct (fs !! save_file_of params key) as [content|] eqn:Hs.
      * rewrite (bool_decide_eq_true_2 (is_Some (Some content))) by eauto.
        rewrite ?lookup_insert_eq; unfold result_bind, result_ret;
        try match goal with Hs : _ !! _ = Some _ |- _ => rewrite ?Hs end;
        by destruct (pkl_load content).
      * rewrite (bool_decide_eq_false_2 (is_Some (@None string)))
          by (by intros [? ?]).
        done.
Qed.

Lemma fits_here_false (params : scaler_params) (loader_type : string) :
  loader_type = "valid"%string \/ loader_type = "test"%string
  \/ is_Some (stat_dict_file params) ->
  fits_here params loader_type = false.
Proof.
  unfold fits_here. intros [->|[->|[f Hf]]]; [done|done|].
  rewrite Hf. apply andb_false_r.
Qed.

End persistence.

(** ** Persistence: statistics are reused *)

Section persistence.
Import Persistence.

(** C6: with loader type valid or test, or with an assigned statistics file
    at any loader type, neither constructor computes statistics from the
    arrays it is given: the result is the same whatever [cal_stat_all] or
    [fit] would return.  Without an assigned file the file of the run
    directory is loaded and its absence ends the constructor
    ([AssertionError]; [FileNotFoundError] for the 3-d groups of the generic
    branch).  An assigned file outside the run directory is first copied over
    the file of the run directory and its content is the one loaded; a
    missing assigned file is a [FileNotFoundError]. *)
Theorem statistics_reused_never_refit {Data StatDict Arr Scaler : Type}
    (cal_stat_all : Data -> StatDict) (json_dump : StatDict -> string)
    (json_load : string -> result StatDict)
    (ndim : Arr -> nat) (reshape2 : Arr -> Arr) (reshape3 : Arr -> Arr -> Arr)
    (fit : Arr -> Scaler) (transform : Scaler -> Arr -> Arr)
    (pkl_dump : Scaler -> string) (pkl_load : string -> result Scaler)
    (params : scaler_params) (loader_type key : string)
    (data : Data) (data_tmp : Arr) (fs : files) :
  loader_type = "valid"%string \/ loader_type = "test"%string
  \/ is_Some (stat_dict_file params) ->
  let stat_file := stat_file_of params in
  let save_file := save_file_of params key in
  let absent := if (ndim data_tmp =? 3)%nat then FileNotFoundError
                else AssertionError in
  let dapeng :=
    DapengScaler_init cal_stat_all json_dump json_load data params
      loader_type fs in
  let group :=
    ScalerHub_group ndim reshape2 reshape3 fit transform pkl_dump pkl_load
      params loader_type key data_tmp fs in
  (forall (Data' : Type) (cal' : Data' -> StatDict) (data' : Data'),
     DapengScaler_init cal' json_dump json_load data' params loader_type fs
     = dapeng)
  /\ (forall fit' : Arr -> Scaler,
        ScalerHub_group ndim reshape2 reshape3 fit' transform pkl_dump
          pkl_load params loader_type key data_tmp fs = group)
  /\ (stat_dict_file params = None ->
        (fs !! stat_file = None -> dapeng = (fs, Raise AssertionError))
        /\ (forall content, fs !! stat_file = Some content ->
              dapeng = (fs, json_load content))
        /\ (fs !! save_file = None -> group = (fs, Raise absent))
        /\ (forall content scaler, fs !! save_file = Some content ->
              pkl_load content = Ok scaler ->
              exists data_norm, group = (fs, Ok (data_norm, scaler))))
  /\ (forall f, stat_dict_file params = Some f ->
        (fs !! f = None ->
           dapeng = (fs, Raise FileNotFoundError)
           /\ group = (fs, Raise FileNotFoundError))
        /\ (forall content, fs !! f = Some content -> f <> stat_file ->
              dapeng = (<[stat_file := content]> fs, json_load content))
        /\ (forall content scaler, fs !! f = Some content -> f <> save_file ->
              pkl_load content = Ok scaler ->
              exists data_norm,
                group = (<[save_file := content]> fs, Ok (data_norm, scaler)))).
Proof.
  intros Hmode%fits_here_false stat_file save_file absent dapeng group.
  assert (Hd : forall (Data' : Type) (cal' : Data' -> StatDict) (data' : Data'),
    DapengScaler_init cal' json_dump json_load data' params loader_type fs
    = match reuse_outcome AssertionError params stat_file fs with
      | (fs', Ok content) => (fs', json_load content)
      | (fs', Raise e) => (fs', Raise e)
      end).
  { intros. by apply DapengScaler_init_reuse. }
  assert (Hg : forall fit' : Arr -> Scaler,
    ScalerHub_group ndim reshape2 reshape3 fit' transform pkl_dump pkl_load
      params loader_type key data_tmp fs
    = match reuse_outcome absent params save_file fs with
      | (fs', Ok content) =>
          (fs',
           scaler ← pkl_load content;
           mret (if (ndim data_tmp =? 3)%nat
                 then reshape3 data_tmp (transform scaler (reshape2 data_tmp))
                 else transform scaler data_tmp, scaler))
      | (fs', Raise e) => (fs', Raise e)
      end).
  { intros. by apply ScalerHub_group_reuse. }
  subst dapeng group. split; [|split; [|split]].
  - intros. by rewrite !Hd.
  - intros. by rewrite !Hg.
  - intros Hnone. rewrite Hd, Hg. unfold reuse_outcome. rewrite Hnone.
    split; [|split; [|split]].
    + by intros ->.
    + by intros content ->.
    + by intros ->.
    + intros content scaler -> Hload. rewrite Hload. by eexists.
  - intros f Hsome. rewrite Hd, Hg. unfold reuse_outcome. rewrite Hsome.
    split; [|split].
    + by intros ->.
    + intros content -> Hne. by rewrite bool_decide_eq_false_2.
    + intros content scaler -> Hne Hload.
      rewrite bool_decide_eq_false_2 by done. rewrite Hload. by eexists.
Qed.

End persistence.

Section demo.
Import Persistence Demo.

Lemma statistics_reused_never_refit_witness :
  DapengScaler_init (fun _ : unit => "refit"%string) (fun s => s) Ok tt
    demo_run "test" demo_files = (demo_files, Ok "trained"%string)
  /\ DapengScaler_init (fun _ : unit => "refit"%string) (fun s => s) Ok tt
       demo_run "test" ∅ = (∅, Raise AssertionError)
  /\ DapengScaler_init (fun _ : unit => "refit"%string) (fun s => s) Ok tt
       demo_run_assigned "train" demo_files
     = (<["run/dapengscaler_stat.json"%string := "assigned"%string]> demo_files,
        Ok "assigned"%string).
Proof.
  split; [|split].
  - apply (statistics_reused_never_refit (fun _ : unit => "refit"%string)
             (fun s => s) Ok (fun _ : unit => 3%nat) (fun a => a) (fun _ a => a)
             (fun _ => "refit"%string) (fun _ a => a) (fun s => s) Ok
             demo_run "test" "target_vars" tt tt demo_files);
      [by right; left | reflexivity | reflexivity].
  - apply (statistics_reused_never_refit (fun _ : unit => "refit"%string)
             (fun s => s) Ok (fun _ : unit => 3%nat) (fun a => a) (fun _ a => a)
             (fun _ => "refit"%string) (fun _ a => a) (fun s => s) Ok
             demo_run "test" "target_vars" tt tt ∅);
      [by right; left | reflexivity | reflexivity].
  - apply (statistics_reused_never_refit (fun _ : unit => "refit"%string)
             (fun s => s) Ok (fun _ : unit => 3%nat) (fun a => a) (fun _ a => a)
             (fun _ => "refit"%string) (fun _ a => a) (fun s => s) Ok
             demo_run_assigned "train" "target_vars" tt tt demo_files
             ltac:(right; right; by eexists)) with "pub/stat.json"%string;
      [reflexivity | reflexivity | discriminate].
Defined.
End demo.

(** ** Normalisation of targets *)

Section normalization.
Import Arrays Normalization.

Lemma forward_NaN (p : policy) (s : stat) : forward p s NaN = NaN.
Proof. by destruct p. Qed.

Lemma inverse_NaN (p : policy) (s : stat) : inverse p s NaN = NaN.
Proof. by destruct p. Qed.

Lemma roundtrip_plain (s : stat) (r : R) :
  std s <> 0%R -> inverse Plain s (forward Plain s (Fin r)) = Fin r.
Proof.
  intros Hstd. unfold forward, inverse. cbn.
  destruct (Req_dec_T (std s) 0) as [?|_]; [done|]. cbn.
  f_equal. field. done.
Qed.

Lemma roundtrip_gamma (s : stat) (r : R) :
  std s <> 0%R -> (0 <= r)%R -> inverse Gamma s (forward Gamma s (Fin r)) = Fin r.
Proof.
  intros Hstd Hr. unfold forward, inverse. cbn.
  destruct (Rlt_dec r 0) as [?|_]; [lra|]. cbn.
  pose proof (sqrt_pos r) as Hs.
  destruct (Rle_dec (sqrt r + 1 / 10) 0) as [?|_]; [lra|]. cbn.
  destruct (Req_dec_T (std s) 0) as [?|_]; [done|]. cbn.
  replace ((ln (sqrt r + 1 / 10) - mean s) / std s * std s + mean s)%R
    with (ln (sqrt r + 1 / 10)) by (field; done).
  rewrite exp_ln by lra.
  replace (sqrt r + 1 / 10 - 1 / 10)%R with (sqrt r) by lra.
  by rewrite sqrt_sqrt.
Qed.

Lemma roundtrip_prcp_norm (x : nat -> nat -> fval) (mean_prep : nat -> fval)
    (i j : nat) (r m : R) :
  x i j = Fin r -> mean_prep i = Fin m -> m <> 0%R ->
  prcp_norm (prcp_norm x mean_prep true) mean_prep false i j = Fin r.
Proof.
  intros Hx Hm Hne. unfold prcp_norm. rewrite Hx, Hm. cbn.
  destruct (Req_dec_T m 0) as [?|_]; [done|]. cbn. f_equal. by field.
Qed.

Lemma index_of_Ok (label : string) (coord : list string) (i : nat) :
  index_of label coord = Ok i -> coord !! i = Some label.
Proof.
  unfold index_of.
  destruct (list_find (fun l => l = label) coord) as [[i' l]|] eqn:Hf;
    cbn; [|discriminate].
  intros [= <-]. by apply list_find_Some in Hf as (Hi & -> & _).
Qed.

(** The loop of [get_data_obs] writes to the variables of [prcp_norm_cols]
    and to no other. *)
Lemma get_data_obs_loop_other (self : DapengScaler) (data : DataArray3 fval)
    (cols : list string) (out out' : DataArray3 fval) (v : nat) (var : string) :
  get_data_obs_loop self data cols out = Ok out' ->
  da_variable data !! v = Some var -> var ∉ prcp_norm_cols self ->
  forall i j, da_values out' v i j = da_values out v i j.
Proof.
  intros Hloop Hv Hvar. revert out Hloop.
  induction cols as [|col cols IH]; intros out; cbn.
  - by intros [= <-].
  - case_bool_decide as Hcol; [|by apply IH].
    destruct (index_of col (da_variable data)) as [v'|e] eqn:Hv'; cbn;
      [|discriminate].
    intros Hloop i j. rewrite (IH _ Hloop). cbn.
    destruct (Nat.eqb_spec v v') as [->|]; [|done].
    apply index_of_Ok in Hv'. congruence.
Qed.

Lemma trans_norm_loop_NaN (x : DataArray3 fval) (var_lst : list string)
    (stat_dict : gmap string stat) (log_norm_cols : list string)
    (to_norm : bool) (out out' : DataArray3 fval) (v : nat) :
  trans_norm_loop x var_lst stat_dict log_norm_cols to_norm out = Ok out' ->
  (forall i j, da_values x v i j = NaN) ->
  (forall i j, da_values out v i j = NaN) ->
  forall i j, da_values out' v i j = NaN.
Proof.
  intros Hloop Hx. revert out Hloop.
  induction var_lst as [|item rest IH]; intros out; cbn.
  - by intros [= <-].
  - destruct (stat_dict !! item) as [s|]; cbn; [|discriminate].
    destruct (index_of item (da_variable x)) as [v'|e]; cbn; [|discriminate].
    intros Hloop Hout. apply (IH _ Hloop). intros i j. cbn.
    destruct (v =? v')%nat eqn:E; [|done].
    apply Nat.eqb_eq in E as <-. rewrite Hx.
    destruct to_norm; [apply forward_NaN|apply inverse_NaN].
Qed.

(** A target outside [prcp_norm_cols] comes out of [get_data_obs] as the
    missing-value marker, whatever the observations are. *)
Lemma get_data_obs_other_NaN (self : DapengScaler) (to_norm : bool)
    (out : DataArray3 fval) (v : nat) (var : string) :
  get_data_obs self to_norm = Ok out ->
  da_variable (data_target self) !! v = Some var ->
  var ∉ prcp_norm_cols self ->
  forall i j, da_values out v i j = NaN.
Proof.
  unfold get_data_obs. intros Hobs Hv Hvar.
  destruct (get_data_obs_loop _ _ _ _) as [out0|e] eqn:Hloop; cbn in Hobs;
    [|discriminate].
  pose proof (get_data_obs_loop_other _ _ _ _ _ _ _ Hloop Hv Hvar) as H0.
  cbn in H0. unfold trans_norm in Hobs.
  by apply (trans_norm_loop_NaN _ _ _ _ _ _ _ _ Hobs).
Qed.

End normalization.

Section demo.
Import Arrays Normalization Demo.

(** C5: a target that follows the gamma policy does not survive the round
    trip.  The element-wise transforms are inverse to each other at the
    observed value 4, but [get_data_obs] copies only the targets of
    [prcp_norm_cols] out of the observations: the gamma target is normalised
    from [xr.full_like(data, np.nan)], comes out as the missing-value marker,
    and [inverse_transform] returns the marker, not 4. *)
Theorem get_data_obs_gamma_target_lost :
  da_values (data_target demo_scaler) 0 0 0 = Fin 4
  /\ inverse Gamma {| mean := 0; std := 1 |}
       (forward Gamma {| mean := 0; std := 1 |} (Fin 4)) = Fin 4
  /\ exists out pred,
       get_data_obs demo_scaler true = Ok out
       /\ da_values out 0 0 0 = NaN
       /\ inverse_transform (fun a => a) demo_scaler out = Ok pred
       /\ da_values pred 0 0 0 = NaN.
Proof.
  split; [reflexivity|]. split; [apply roundtrip_gamma; cbn; lra|].
  eexists _, _. split; [by vm_compute|]. split; [reflexivity|].
  split; [by vm_compute|]. reflexivity.
Qed.
End demo.

(** ** The lookup table for any window length, and as a bijection *)

Section lookup_table_more.
Import LookupTable.
Implicit Types (basins : list string) (dates : list Z) (rho w : Z).

(** The entries of one basin for any window length, with a warmup that is
    not negative: the generator never reads outside the dates. *)
Lemma basin_entries_any_rho b dates rho w :
  0 <= w ->
  let nt := Z.of_nat (length dates) in
  basin_entries b dates rho w
  = Ok ((fun f => (b, dates !!! Z.to_nat f))
          <$> seqZ w (Z.min (nt - w) (nt - rho + 1 - w))).
Proof.
  intros Hw nt. unfold basin_entries. rewrite generator_indices.
  apply mapM_result_fmap. intros f Hf. apply elem_of_seqZ in Hf.
  assert (Z.to_nat f < length dates)%nat as Hlt by lia.
  apply lookup_lt_is_Some in Hlt as [d Hd].
  rewrite (np_getitem_nonneg dates f d) by (done || lia). cbn.
  by rewrite (list_lookup_total_correct _ _ _ Hd).
Qed.

(** X1: for a warmup length that is not negative the table is built for
    every window length, also zero or negative, without an exception, and
    holds [ngrid * max 0 (min (nt - w) (nt - rho + 1 - w))] entries; for
    [rho <= 0] that is [ngrid * max 0 (nt - w)], one entry for every
    position from the warmup on. *)
Theorem lookup_table_size_any_rho basins dates rho w :
  0 <= w ->
  let ngrid := Z.of_nat (length basins) in
  let nt := Z.of_nat (length dates) in
  exists t, create_lookup_table basins dates rho w = Ok t
    /\ num_samples t
       = ngrid * Z.max 0 (Z.min (nt - w) (nt - rho + 1 - w))
    /\ (rho <= 0 -> num_samples t = ngrid * Z.max 0 (nt - w)).
Proof.
  intros Hw ngrid nt. unfold create_lookup_table.
  rewrite (extend_basins_app _ _ _ _
    (fun b => (fun f => (b, dates !!! Z.to_nat f))
                <$> seqZ w (Z.min (nt - w) (nt - rho + 1 - w))))
    by (intros; by apply basin_entries_any_rho).
  cbn [mbind result_bind mret result_ret app]. eexists. split; [reflexivity|].
  cbn [num_samples]. rewrite dict_enumerate_size.
  rewrite (length_bind_uniform _
             (Z.to_nat (Z.min (nt - w) (nt - rho + 1 - w))))
    by (intros; by rewrite length_fmap, length_seqZ).
  subst ngrid. split; [lia|]. intros Hrho. lia.
Qed.

Lemma lookup_table_size_any_rho_witness :
  exists t, create_lookup_table ["b0"; "b1"]%string (seqZ 100 5) 0 1 = Ok t
    /\ num_samples t = 8.
Proof.
  destruct (lookup_table_size_any_rho ["b0"; "b1"]%string (seqZ 100 5) 0 1)
    as (t & Ht & _ & Hn); [lia|].
  exists t. split; [exact Ht|]. rewrite Hn by lia. reflexivity.
Defined.

(** X2: when the unit identifiers and the timestamps are pairwise distinct
    ([rho >= 1], [w >= 0]), the lookup table is a bijection between the ids
    [0 .. num_samples - 1] and the pairs (unit, timestamp at a valid start):
    no pair is stored under two ids, and every unit paired with the
    timestamp at any position [f] with [w <= f <= nt - rho] is stored under
    some id below [num_samples]. *)
Theorem lookup_table_bijection basins dates rho w t :
  1 <= rho -> 0 <= w -> NoDup basins -> NoDup dates ->
  create_lookup_table basins dates rho w = Ok t ->
  (forall k1 k2 e,
     lookup_table t !! k1 = Some e -> lookup_table t !! k2 = Some e -> k1 = k2)
  /\ (forall b f d,
        b ∈ basins -> w <= f -> f <= Z.of_nat (length dates) - rho ->
        dates !! Z.to_nat f = Some d ->
        exists k, 0 <= k < num_samples t /\ lookup_table t !! k = Some (b, d)).
Proof.
  intros Hrho Hw Hnb Hnd Ht.
  rewrite create_lookup_table_window in Ht by done. injection Ht as <-.
  cbn [lookup_table num_samples].
  set (nt := Z.of_nat (length dates)).
  set (starts := window_starts nt rho w).
  set (g := fun b : string => (fun f => (b, dates !!! Z.to_nat f)) <$> starts).
  assert (Hstarts : forall f, f ∈ starts <-> w <= f <= nt - rho).
  { intros f. unfold starts, window_starts. rewrite elem_of_seqZ. lia. }
  assert (Hdate : forall f, f ∈ starts ->
            dates !! Z.to_nat f = Some (dates !!! Z.to_nat f)).
  { intros f Hf%Hstarts. apply list_lookup_lookup_total_lt. lia. }
  assert (Hl : NoDup (basins ≫= g)).
  { apply NoDup_bind; [| |done].
    - intros b1 b2 [b d] _ _ H1 H2. unfold g in H1, H2.
      apply list_elem_of_fmap in H1 as (f1 & [= -> _] & _).
      by apply list_elem_of_fmap in H2 as (f2 & [= -> _] & _).
    - intros b _. unfold g. apply NoDup_fmap_2_strong; [|apply NoDup_seqZ].
      intros f1 f2 Hf1 Hf2 [= Heq].
      pose proof (Hdate f1 Hf1) as H1. pose proof (Hdate f2 Hf2) as H2.
      rewrite Heq in H1.
      pose proof (NoDup_lookup _ _ _ _ Hnd H1 H2).
      apply Hstarts in Hf1, Hf2. lia. }
  split.
  - intros k1 k2 e [? H1]%dict_enumerate_lookup [? H2]%dict_enumerate_lookup.
    pose proof (NoDup_lookup _ _ _ _ Hl H1 H2). lia.
  - intros b f d Hb Hf1 Hf2 Hd.
    assert ((b, d) ∈ basins ≫= g) as Hin.
    { apply list_elem_of_bind. exists b. split; [|done].
      unfold g. apply list_elem_of_fmap. exists f. split.
      - by rewrite (list_lookup_total_correct _ _ _ Hd).
      - apply Hstarts. lia. }
    apply list_elem_of_lookup in Hin as [i Hi].
    exists (Z.of_nat i). apply lookup_lt_Some in Hi as Hlt. split; [lia|].
    apply dict_enumerate_lookup. split; [lia|]. by rewrite Nat2Z.id.
Qed.

Lemma lookup_table_bijection_witness :
  exists k, 0 <= k < 6
    /\ dict_enumerate [("b0", 101); ("b0", 102); ("b0", 103);
                       ("b1", 101); ("b1", 102); ("b1", 103)]%string !! k
       = Some ("b1"%string, 103).
Proof.
  destruct (lookup_table_bijection ["b0"; "b1"]%string (seqZ 100 5) 2 1
              {| lookup_table :=
                   dict_enumerate [("b0", 101); ("b0", 102); ("b0", 103);
                                   ("b1", 101); ("b1", 102); ("b1", 103)]%string;
                 num_samples := 6 |}) as [_ Hcover];
    [lia | lia | apply (bool_decide_unpack _); by vm_compute
    | apply NoDup_seqZ | reflexivity |].
  apply (Hcover "b1"%string 3 103);
    [apply (bool_decide_unpack _); by vm_compute | lia | by vm_compute | reflexivity].
Defined.

End lookup_table_more.

(** ** The facade: which ids can be read, inference mode, construction *)

Section facade_more.
Import Arrays Dataset.
Context {V W : Type} (cast : V -> W).
Implicit Types (self : BaseDataset V).

(** The ids of a constructed table are [0 .. num_samples - 1]. *)
Lemma constructed_keys self (item : Z) :
  constructed self ->
  is_Some (lookup_table self !! item) <-> 0 <= item < num_samples self.
Proof.
  intros Hc%constructed_table. unfold LookupTable.create_lookup_table in Hc.
  destruct (LookupTable.extend_basins _ _ _ _ _) as [l|e]; cbn in Hc;
    [|discriminate].
  injection Hc as <- <-. rewrite dict_enumerate_size.
  unfold dict_enumerate. rewrite lookup_map_seqZ_is_Some. lia.
Qed.

(** X3: in train mode, on a constructed dataset over a daily grid
    ([w >= 0], [rho >= 1]), [__getitem__] returns a sample for exactly the
    ids [0 <= item < len(dataset)]; every other id, a negative one
    included, raises [KeyError] (the lookup table is a dict, so a negative
    id does not count from the end). *)
Theorem getitem_train_valid_ids self d0 nt item :
  train_mode self = true ->
  constructed self -> daily_grid self d0 nt ->
  0 <= warmup_length self -> 1 <= rho self ->
  (0 <= item < BaseDataset_len self ->
   exists X Y, BaseDataset_getitem cast self item = Ok (X, Y))
  /\ (~ 0 <= item < BaseDataset_len self ->
      BaseDataset_getitem cast self item = Raise KeyError).
Proof.
  intros Htrain Hc Hgrid Hw Hrho. unfold BaseDataset_len. rewrite Htrain.
  split.
  - intros [[basin time] Hitem]%(constructed_keys _ _ Hc).
    destruct (getitem_train cast _ _ _ _ _ _ Htrain Hc Hgrid Hw Hrho Hitem)
      as (f & i & X & Y & _ & _ & _ & _ & Hget & _).
    by exists X, Y.
  - intros Hout. unfold BaseDataset_getitem. rewrite Htrain. cbn [negb].
    unfold dict_getitem.
    destruct (lookup_table self !! item) as [e|] eqn:He; [|reflexivity].
    exfalso. apply Hout. apply (constructed_keys _ _ Hc). by eexists.
Qed.

Lemma np_getitem_out_of_range {A} (a : list A) (i : Z) :
  i < - Z.of_nat (length a) \/ Z.of_nat (length a) <= i ->
  np_getitem a i = Raise IndexError.
Proof.
  intros Hi. unfold np_getitem.
  destruct (Z.ltb_spec i 0).
  - replace (0 <=? i + Z.of_nat (length a)) with false by lia. reflexivity.
  - replace (i <? Z.of_nat (length a)) with false by lia.
    by rewrite andb_false_r.
Qed.

Lemma np_getitem_in_range {A} (a : list A) (i : Z) :
  - Z.of_nat (length a) <= i < Z.of_nat (length a) ->
  exists d, np_getitem a i = Ok d
    /\ a !! Z.to_nat (i mod Z.of_nat (length a)) = Some d.
Proof.
  intros Hi. unfold np_getitem.
  set (n := Z.of_nat (length a)) in *.
  destruct (Z.ltb_spec i 0) as [Hneg|Hpos].
  - assert (i mod n = i + n) as ->
      by (symmetry; apply (Z.mod_unique_pos _ _ (-1)); lia).
    replace (0 <=? i + n) with true by lia.
    replace (i + n <? n) with true by lia. cbn [andb].
    assert (Z.to_nat (i + n) < length a)%nat as Hlt by lia.
    apply lookup_lt_is_Some in Hlt as [d Hd]. exists d. by rewrite Hd.
  - rewrite Z.mod_small by lia.
    replace (0 <=? i) with true by lia.
    replace (i <? n) with true by lia. cbn [andb].
    assert (Z.to_nat i < length a)%nat as Hlt by lia.
    apply lookup_lt_is_Some in Hlt as [d Hd]. exists d. by rewrite Hd.
Qed.

Lemma index_of_NoDup (coord : list string) (i : nat) (label : string) :
  NoDup coord -> coord !! i = Some label -> index_of label coord = Ok i.
Proof.
  intros Hnd Hi.
  destruct (index_of_elem label coord) as (j & Hj & Hj');
    [by eapply list_elem_of_lookup_2|].
  by rewrite (NoDup_lookup _ _ _ _ Hnd Hi Hj').
Qed.

(** X4: outside train mode [__getitem__] does no windowing.  When the
    basin coordinates of the arrays are the (pairwise distinct) site ids,
    an index [-n <= item < n] selects the site at position [item mod n] (a
    negative index counts from the end) and returns its whole forcing
    series, with the attributes repeated on every row when there are any,
    and its whole target series; any other index raises [IndexError]. *)
Theorem getitem_inference_whole_series self item :
  train_mode self = false ->
  NoDup (sites_id self) ->
  da_basin (x self) = sites_id self -> da_basin (y self) = sites_id self ->
  (forall ca, c self = Some ca -> c_basin ca = sites_id self) ->
  (forall ca, has_attributes self = Some ca -> c_variable ca <> []) ->
  let n := Z.of_nat (length (sites_id self)) in
  (- n <= item < n ->
   exists X Y,
     BaseDataset_getitem cast self item = Ok (X, Y)
     /\ shape0 X = length (da_time (x self))
     /\ shape0 Y = length (da_time (y self))
     /\ shape1 Y = length (da_variable (y self))
     /\ (forall t v : nat,
           (v < length (da_variable (x self)))%nat ->
           item2 X t v = cast (da_values (x self) v (Z.to_nat (item mod n)) t))
     /\ (forall t v : nat,
           item2 Y t v = cast (da_values (y self) v (Z.to_nat (item mod n)) t))
     /\ match has_attributes self with
        | None => shape1 X = length (da_variable (x self))
        | Some ca =>
            shape1 X
            = (length (da_variable (x self)) + length (c_variable ca))%nat
            /\ forall t u : nat,
                 item2 X t (length (da_variable (x self)) + u)
                 = cast (c_values ca u (Z.to_nat (item mod n)))
        end)
  /\ (item < - n \/ n <= item ->
      BaseDataset_getitem cast self item = Raise IndexError).
Proof.
  intros Hmode Hnd Hxb Hyb Hcb Hattr n. split.
  - intros Hitem.
    destruct (np_getitem_in_range (sites_id self) item Hitem)
      as (basin & Hget & Hsite).
    fold n in Hsite. set (i := Z.to_nat (item mod n)) in *.
    pose proof (index_of_NoDup _ _ _ Hnd Hsite) as Hi.
    unfold BaseDataset_getitem. rewrite Hmode, Hget. cbn [negb mbind result_bind].
    unfold sel_basin. rewrite Hxb, Hyb, Hi.
    cbn [mbind result_bind mret result_ret fmap result_fmap].
    destruct (has_attributes self) as [ca|] eqn:Hca.
    + assert (c_basin ca = sites_id self) as Hcab.
      { unfold has_attributes in Hca. destruct (c self) as [ca'|] eqn:Hc';
          [|discriminate].
        destruct (0 <? length (c_basin ca'))%nat; [|discriminate].
        injection Hca as <-. by apply Hcb. }
      unfold sel_basin_attr. rewrite Hcab, Hi.
      cbn [mbind result_bind mret result_ret].
      unfold np_repeat_reshape_T. cbn [size1].
      destruct (Nat.eqb_spec (length (c_variable ca)) 0) as [Hz|_].
      { destruct (c_variable ca) eqn:E; [|discriminate].
        by destruct (Hattr ca eq_refl). }
      cbn [mbind result_bind]. unfold np_concatenate_axis1.
      cbn [np_T shape0 shape1 item2]. rewrite Nat.eqb_refl.
      cbn [mbind result_bind mret result_ret].
      eexists _, _. repeat split; try done; cbn -[Nat.ltb]; intros;
        repeat match goal with
               | |- context [(?a <? ?b)%nat] =>
                   destruct (Nat.ltb_spec a b); try lia
               end; try done.
      do 2 f_equal. lia.
    + eexists _, _. repeat split; done.
  - intros Hout. unfold BaseDataset_getitem. rewrite Hmode. cbn [negb].
    by rewrite np_getitem_out_of_range.
Qed.

(** X5: outside train mode [BasinSingleFlowDataset.__getitem__] raises
    [IndexError] for every index from the number of sites [n] on, while
    [__len__] of a constructed dataset ([rho >= 1], [w >= 0],
    [nt - rho - w + 1 >= 0]) is the number of windows
    [n * (nt - rho - w + 1)]: of the indices below the reported length only
    the first [n] can be read. *)
Theorem single_flow_inference_index_error self index :
  train_mode self = false ->
  let n := Z.of_nat (length (sites_id self)) in
  let m := Z.of_nat (length (da_time (y self))) - rho self
           - warmup_length self + 1 in
  (n <= index ->
   BasinSingleFlowDataset_getitem cast self index = Raise IndexError)
  /\ (constructed self -> 1 <= rho self -> 0 <= warmup_length self ->
      0 <= m -> BasinSingleFlowDataset_len self = n * m).
Proof.
  intros Hmode n m. split.
  - intros Hindex.
    unfold BasinSingleFlowDataset_getitem, BaseDataset_getitem.
    rewrite Hmode. cbn [negb]. rewrite np_getitem_out_of_range by lia.
    reflexivity.
  - intros Hc%constructed_table Hrho Hw Hm.
    rewrite create_lookup_table_window in Hc by done.
    injection Hc as _ Hnum. unfold BasinSingleFlowDataset_len.
    rewrite <- Hnum.
    rewrite (length_bind_uniform _ (Z.to_nat m))
      by (intros; by rewrite length_fmap, length_window_starts).
    rewrite Nat2Z.inj_mul, Z2Nat.id by (subst m; lia). reflexivity.
Qed.

(** X6: [BaseDataset.__init__] raises [ValueError] for a loader type other
    than train, valid or test; when it returns, the loader type is one of
    the three, the lookup table and the number of samples are those of
    [_create_lookup_table] on the loaded data, train mode is set exactly for
    the loader type train, and the window and warmup lengths are those of
    the parameters. *)
Theorem BaseDataset_init_outcome (source : string -> result (scaled V))
    (params : data_params) (loader_type : string) :
  (loader_type ∉ ["train"; "valid"; "test"]%string ->
   BaseDataset_init source params loader_type = Raise ValueError)
  /\ (forall self, BaseDataset_init source params loader_type = Ok self ->
        loader_type ∈ ["train"; "valid"; "test"]%string
        /\ constructed self
        /\ train_mode self = bool_decide (loader_type = "train"%string)
        /\ rho self = forecast_history params
        /\ warmup_length self = dp_warmup_length params
        /\ exists s, source loader_type = Ok s
             /\ sites_id self = s_sites_id s /\ x self = s_x s
             /\ y self = s_y s /\ c self = s_c s).
Proof.
  unfold BaseDataset_init. split.
  - intros Hlt. by rewrite bool_decide_eq_false_2.
  - intros self. case_bool_decide as Hlt; [|discriminate].
    unfold BaseDataset_load_data.
    destruct (source loader_type) as [s|e] eqn:Hs; cbn [mbind result_bind];
      [|discriminate].
    intros Hself. split; [done|]. split; [by eexists|].
    unfold BaseDataset_create_lookup_table in Hself.
    match type of Hself with
    | context [LookupTable.create_lookup_table ?a ?b ?c ?d] =>
        destruct (LookupTable.create_lookup_table a b c d) as [t|e]
    end; cbn [mbind result_bind mret result_ret] in Hself; [|discriminate].
    injection Hself as <-. cbn. repeat split; try done. by exists s.
Qed.

End facade_more.

Section demo_more.
Import Arrays Dataset Demo.

Lemma getitem_train_valid_ids_witness :
  (exists X Y, BaseDataset_getitem (fun z : Z => z) (demo_dataset true) 5
               = Ok (X, Y))
  /\ BaseDataset_getitem (fun z : Z => z) (demo_dataset true) 6 = Raise KeyError
  /\ BaseDataset_getitem (fun z : Z => z) (demo_dataset true) (-1)
     = Raise KeyError.
Proof.
  destruct (getitem_train_valid_ids (fun z : Z => z) (demo_dataset true) 100 5 5)
    as [Hin _];
    [reflexivity | apply demo_constructed | apply demo_daily_grid
    | cbn; lia | cbn; lia |].
  destruct (getitem_train_valid_ids (fun z : Z => z) (demo_dataset true) 100 5 6)
    as [_ Hout6];
    [reflexivity | apply demo_constructed | apply demo_daily_grid
    | cbn; lia | cbn; lia |].
  destruct (getitem_train_valid_ids (fun z : Z => z) (demo_dataset true) 100 5 (-1))
    as [_ Hout1];
    [reflexivity | apply demo_constructed | apply demo_daily_grid
    | cbn; lia | cbn; lia |].
  split; [apply Hin; cbn; lia|].
  split; [apply Hout6; cbn; lia | apply Hout1; cbn; lia].
Defined.

Lemma getitem_inference_whole_series_witness :
  exists X Y,
    BaseDataset_getitem (fun z : Z => z) (demo_dataset false) (-1) = Ok (X, Y)
    /\ rows X = [[1010; 1110; 3010]; [1011; 1111; 3010]; [1012; 1112; 3010];
                 [1013; 1113; 3010]; [1014; 1114; 3010]]
    /\ rows Y = [[2010]; [2011]; [2012]; [2013]; [2014]].
Proof.
  destruct (getitem_inference_whole_series (fun z : Z => z) (demo_dataset false)
              (-1)) as [Hin _];
    [reflexivity | apply (bool_decide_unpack _); by vm_compute
    | reflexivity | reflexivity | by intros ca [= <-]
    | by intros ca [= <-] |].
  destruct Hin as (X & Y & Hget & _); [cbn; lia|].
  exists X, Y. split; [exact Hget|].
  assert (Hrows :
            match BaseDataset_getitem (fun z : Z => z) (demo_dataset false) (-1)
            with
            | Ok (X, Y) =>
                rows X = [[1010; 1110; 3010]; [1011; 1111; 3010];
                          [1012; 1112; 3010]; [1013; 1113; 3010];
                          [1014; 1114; 3010]]
                /\ rows Y = [[2010]; [2011]; [2012]; [2013]; [2014]]
            | Raise _ => True
            end) by (by vm_compute).
  rewrite Hget in Hrows. exact Hrows.
Defined.

Lemma single_flow_inference_index_error_witness :
  BasinSingleFlowDataset_getitem (fun z : Z => z) (demo_dataset false) 3
  = Raise IndexError
  /\ BasinSingleFlowDataset_len (demo_dataset false) = 6.
Proof.
  destruct (single_flow_inference_index_error (fun z : Z => z)
              (demo_dataset false) 3 eq_refl) as [Hget Hlen].
  split; [apply Hget; cbn; lia|].
  rewrite Hlen; [reflexivity | apply demo_constructed | by vm_compute..].
Defined.

Lemma BaseDataset_init_outcome_witness :
  BaseDataset_init demo_source (demo_params false) "training" = Raise ValueError
  /\ constructed (demo_dataset false).
Proof.
  destruct (BaseDataset_init_outcome demo_source (demo_params false) "training")
    as [Hbad _].
  destruct (BaseDataset_init_outcome demo_source (demo_params false) "test")
    as [_ Hok].
  split.
  - apply Hbad. apply (bool_decide_unpack _). by vm_compute.
  - apply (Hok (demo_dataset false)). apply (demo_init false "test").
    apply (bool_decide_unpack _). by vm_compute.
Defined.

End demo_more.

(** ** The sampler: the shrunk batch size and the constructor's outcomes *)

Section sampler_more.
Import KuaiSampler.







(** X9: whenever [KuaiSampler.__init__] returns a sampler, its number of
    samples is a whole number [n >= 1] of batches of the shrunk size
    [b' >= 1], so it is never below one batch; the sampler is over the
    dataset given and draws without replacement. *)
Theorem KuaiSampler_init_returns_full_batches (fuel : nat)
    (dlen b w rho ngrid nt : Z) (s : RandomSampler) :
  KuaiSampler_init fuel dlen b w rho ngrid nt = Some (Ok s) ->
  exists b' n,
    shrink_batch_size fuel b rho ngrid nt = Some b'
    /\ n_iter_ep b' rho ngrid nt w = Ok n
    /\ 1 <= b' /\ 1 <= n
    /\ rs_num_samples s = n * b'
    /\ b' <= rs_num_samples s
    /\ data_source_len s = dlen
    /\ replacement s = false.
Proof.
  unfold KuaiSampler_init.
  destruct (shrink_batch_size fuel b rho ngrid nt) as [b'|] eqn:Hb;
    cbn [mbind option_bind]; [|discriminate].
  pose proof (shrink_batch_size_floor _ _ _ _ _ _ Hb) as Hb1.
  unfold KuaiSampler_sample_count.
  destruct (n_iter_ep b' rho ngrid nt w) as [n|e] eqn:Hn;
    cbn [mbind result_bind]; [|discriminate].
  unfold py_assert. destruct (Z.geb_spec n 1) as [Hge|Hlt];
    cbn [mbind result_bind mret result_ret]; [|discriminate].
  intros [= <-]. exists b', n. cbn. repeat split; try done; nia.
Qed.

Lemma KuaiSampler_init_returns_full_batches_witness :
  exists b' n, shrink_batch_size 1 1 1 1 3 = Some b'
    /\ n_iter_ep b' 1 1 3 1 = Ok n /\ 1 <= n.
Proof.
  destruct (KuaiSampler_init_covering 1 2 1 1 1 1 3 1) as [Hinit _];
    [reflexivity | lia | lia | lia | lia |].
  destruct (KuaiSampler_init_returns_full_batches 1 2 1 1 1 1 3 _ Hinit)
    as (b' & n & Hb & Hn & _ & Hge & _).
  by exists b', n.
Defined.



End sampler_more.

(** ** [DplDataset.__init__]: the depth of the recursion *)

Section dpl_more.
Import Arrays Dataset Dpl.
Context {V : Type}.
Variable source : string -> result (scaled V).
Variable params : data_params.

(** In train mode the constructor does not call itself. *)
Lemma DplDataset_init_train (fuel : nat) :
  (1 <= fuel)%nat ->
  DplDataset_init source params fuel "train"
  = Some (match BaseDataset_init source params "train" with
          | Ok b =>
              Ok (mkDplDataset
                    {| sites_id := sites_id b; x := x b; y := y b; c := c b;
                       train_mode := train_mode b; rho := rho b;
                       warmup_length := dp_warmup_length params;
                       lookup_table := lookup_table b;
                       num_samples := num_samples b |}
                    (dp_target_as_input params) (dp_constant_only params) None)
          | Raise e => Raise e
          end).
Proof.
  intros Hfuel. destruct fuel as [|fuel]; [lia|]. cbn [DplDataset_init].
  destruct (BaseDataset_init source params "train") as [b|e] eqn:Hb; [|done].
  apply BaseDataset_init_train_mode in Hb. cbn [train_mode].
  rewrite Hb. rewrite bool_decide_eq_true_2 by done.
  by rewrite andb_false_r.
Qed.

(** X11: [DplDataset.__init__] recurses at most once.  Two levels of calls
    are enough for every loader type; a failure of the base constructor is
    the result, and a failure while building the nested training dataset
    fails the whole construction.  When it returns, a nested training
    dataset is held exactly when [target_as_input] is set outside train
    mode; that nested dataset is in train mode and holds none itself. *)
Theorem DplDataset_init_total (loader_type : string) :
  exists r,
    (forall fuel, (2 <= fuel)%nat ->
       DplDataset_init source params fuel loader_type = Some r)
    /\ (forall e, BaseDataset_init source params loader_type = Raise e ->
          r = Raise e)
    /\ (forall e, dp_target_as_input params = true ->
          loader_type <> "train"%string ->
          BaseDataset_init source params "train" = Raise e ->
          exists e', r = Raise e')
    /\ (forall ds, r = Ok ds ->
          target_as_input ds = dp_target_as_input params
          /\ constant_only ds = dp_constant_only params
          /\ train_mode (base ds) = bool_decide (loader_type = "train"%string)
          /\ match train_dataset ds with
             | Some td =>
                 dp_target_as_input params = true
                 /\ train_mode (base ds) = false
                 /\ train_mode (base td) = true
                 /\ train_dataset td = None
             | None =>
                 dp_target_as_input params = false
                 \/ train_mode (base ds) = true
             end).
Proof.
  destruct (BaseDataset_init source params loader_type) as [b|e] eqn:Hb.
  - pose proof (BaseDataset_init_train_mode _ _ _ _ Hb) as Hmode.
    destruct (dp_target_as_input params && negb (train_mode b)) eqn:Hnest.
    + apply andb_true_iff in Hnest as [Htai Hinf].
      apply negb_true_iff in Hinf.
      destruct (BaseDataset_init source params "train") as [bt|et] eqn:Hbt.
      * pose proof (BaseDataset_init_train_mode _ _ _ _ Hbt) as Hmodet.
        rewrite bool_decide_eq_true_2 in Hmodet by done.
        eexists. split; [|split; [|split]].
        -- intros fuel Hfuel. destruct fuel as [|fuel]; [lia|].
           cbn [DplDataset_init]. rewrite Hb. cbn [train_mode].
           rewrite Htai, Hinf. cbn [negb andb].
           rewrite DplDataset_init_train by lia. rewrite Hbt. reflexivity.
        -- discriminate.
        -- discriminate.
        -- intros ds [= <-]. cbn. by rewrite <- Hmode.
      * exists (Raise et). split; [|split; [|split]].
        -- intros fuel Hfuel. destruct fuel as [|fuel]; [lia|].
           cbn [DplDataset_init]. rewrite Hb. cbn [train_mode].
           rewrite Htai, Hinf. cbn [negb andb].
           rewrite DplDataset_init_train by lia. by rewrite Hbt.
        -- discriminate.
        -- intros. by eexists.
        -- discriminate.
    + eexists. split; [|split; [|split]].
      * intros fuel Hfuel. destruct fuel as [|fuel]; [lia|].
        cbn [DplDataset_init]. rewrite Hb. cbn [train_mode].
        rewrite Hnest. reflexivity.
      * discriminate.
      * intros e Htai Hlt _. exfalso.
        rewrite Htai, Hmode, bool_decide_eq_false_2 in Hnest by done.
        discriminate.
      * intros ds [= <-]. cbn. rewrite <- Hmode. repeat split; try done.
        apply andb_false_iff in Hnest as [?|Hn]; [by left|right].
        by apply negb_false_iff in Hn.
  - exists (Raise e). split; [|split; [|split]].
    + intros fuel Hfuel. destruct fuel as [|fuel]; [lia|].
      cbn [DplDataset_init]. by rewrite Hb.
    + by intros e' [= <-].
    + intros. by eexists.
    + discriminate.
Qed.

End dpl_more.

(** ** Persistence: what a training run leaves for the later runs *)

Section persistence_more.
Import Persistence.

Ltac io_unfold :=
  unfold copy_assigned, shutil_copy, os_path_isfile, read_file, write_file,
    io_lift, io_raise, py_assert, or_raise;
  unfold mbind, io_bind, mret, io_ret.

Lemma append_inj_r (p a b : string) : p +:+ a = p +:+ b -> a = b.
Proof. induction p as [|ch p IH]; cbn; [done|]. intros [= H]. by apply IH. Qed.

Lemma os_path_join_inj (p a b : string) :
  os_path_join p a = os_path_join p b -> a = b.
Proof.
  unfold os_path_join.
  destruct (bool_decide (p = ""%string)); [done|].
  destruct (bool_decide _).
  - apply append_inj_r.
  - intros Heq%append_inj_r. by apply (append_inj_r "/") in Heq.
Qed.

Lemma fits_here_train (params : scaler_params) :
  stat_dict_file params = None -> fits_here params "train" = true.
Proof. intros H. unfold fits_here. by rewrite H. Qed.

Lemma fits_here_other (params : scaler_params) (loader_type : string) :
  loader_type <> "train"%string -> fits_here params loader_type = false.
Proof. intros H. unfold fits_here. by rewrite bool_decide_eq_false_2. Qed.

Section dapeng.
Context {StatDict : Type}.
Variable json_dump : StatDict -> string.
Variable json_load : string -> result StatDict.

(** X12: with no assigned statistics file, constructing a [DapengScaler]
    in train mode writes the statistics computed from its data to
    [dapengscaler_stat.json] of [test_path]; when the JSON round trip gives
    the statistics back, every later construction with another loader type
    over the resulting files returns these training statistics, whatever
    its own data, and leaves the files as they are. *)
Theorem DapengScaler_train_then_reuse {Data : Type}
    (cal_stat_all : Data -> StatDict) (data : Data)
    (params : scaler_params) (fs : files) :
  stat_dict_file params = None ->
  json_load (json_dump (cal_stat_all data)) = Ok (cal_stat_all data) ->
  let stats := cal_stat_all data in
  let fs1 := <[stat_file_of params := json_dump stats]> fs in
  DapengScaler_init cal_stat_all json_dump json_load data params "train" fs
  = (fs1, Ok stats)
  /\ forall (loader_type : string) (Data' : Type) (cal' : Data' -> StatDict)
       (data' : Data'),
       loader_type <> "train"%string ->
       DapengScaler_init cal' json_dump json_load data' params loader_type fs1
       = (fs1, Ok stats).
Proof.
  intros Hnone Hround stats fs1. split.
  - unfold DapengScaler_init. by rewrite fits_here_train.
  - intros loader_type Data' cal' data' Hlt.
    rewrite DapengScaler_init_reuse by (by apply fits_here_other).
    unfold reuse_outcome. rewrite Hnone. unfold fs1.
    rewrite lookup_insert_eq. unfold stats. by rewrite Hround.
Qed.

(** X13: [DapengScaler.__init__] writes to no path but
    [dapengscaler_stat.json] of [test_path]; and when it returns, that file
    exists and agrees with the statistics returned: it is their dump when
    they were fitted, and they are what was loaded from it otherwise. *)
Theorem DapengScaler_init_touches_one_file {Data : Type}
    (cal_stat_all : Data -> StatDict) (data : Data)
    (params : scaler_params) (loader_type : string) (fs : files) :
  let out := DapengScaler_init cal_stat_all json_dump json_load data params
               loader_type fs in
  (forall p, p <> stat_file_of params -> out.1 !! p = fs !! p)
  /\ (forall stats, out.2 = Ok stats ->
        exists content,
          out.1 !! stat_file_of params = Some content
          /\ (fits_here params loader_type = true ->
              stats = cal_stat_all data /\ content = json_dump stats)
          /\ (fits_here params loader_type = false ->
              json_load content = Ok stats)).
Proof.
  intros out. subst out.
  destruct (fits_here params loader_type) eqn:Hfit.
  - unfold DapengScaler_init. rewrite Hfit. io_unfold. cbn [fst snd].
    split.
    + intros p Hp. by rewrite lookup_insert_ne.
    + intros stats [= <-]. eexists. rewrite lookup_insert_eq.
      split; [done|]. split; [done|discriminate].
  - rewrite DapengScaler_init_reuse by done. unfold reuse_outcome.
    destruct (stat_dict_file params) as [f|].
    + destruct (fs !! f) as [content|] eqn:Hf; cbn [fst snd];
        [|split; [done|discriminate]].
      case_bool_decide as Hsame; cbn [fst snd]; [split; [done|discriminate]|].
      split; [intros p Hp; by rewrite lookup_insert_ne|].
      intros stats Hstats. exists content. rewrite lookup_insert_eq.
      split; [done|]. split; [discriminate|done].
    + destruct (fs !! stat_file_of params) as [content|] eqn:Hs; cbn [fst snd];
        [|split; [done|discriminate]].
      split; [done|]. intros stats Hstats. exists content.
      split; [done|]. split; [discriminate|done].
Qed.

End dapeng.
Section generic.
Context {Arr Scaler : Type}.
Variable ndim : Arr -> nat.
Variable reshape2 : Arr -> Arr.
Variable reshape3 : Arr -> Arr -> Arr.
Variable transform : Scaler -> Arr -> Arr.
Variable pkl_dump : Scaler -> string.
Variable pkl_load : string -> result Scaler.

Lemma save_files_distinct (params : scaler_params) :
  save_file_of params "target_vars" <> save_file_of params "relevant_vars"
  /\ save_file_of params "target_vars" <> save_file_of params "constant_vars"
  /\ save_file_of params "relevant_vars" <> save_file_of params "constant_vars".
Proof.
  unfold save_file_of. repeat split; intros H%os_path_join_inj; discriminate.
Qed.

Lemma ScalerHub_group_fit (fit : Arr -> Scaler) (params : scaler_params)
    (loader_type key : string) (data_tmp : Arr) (fs : files) :
  fits_here params loader_type = true ->
  let flat := if (ndim data_tmp =? 3)%nat then reshape2 data_tmp else data_tmp in
  let scaler := fit flat in
  ScalerHub_group ndim reshape2 reshape3 fit transform pkl_dump pkl_load
    params loader_type key data_tmp fs
  = (<[save_file_of params key := pkl_dump scaler]> fs,
     Ok (if (ndim data_tmp =? 3)%nat
         then reshape3 data_tmp (transform scaler (reshape2 data_tmp))
         else transform scaler data_tmp, scaler)).
Proof.
  intros Hfit. unfold ScalerHub_group. rewrite Hfit. cbv zeta.
  by destruct (ndim data_tmp =? 3)%nat.
Qed.

Lemma ScalerHub_group_load (fit : Arr -> Scaler) (params : scaler_params)
    (loader_type key : string) (data_tmp : Arr) (fs : files)
    (content : string) (scaler : Scaler) :
  fits_here params loader_type = false ->
  reuse_outcome (if (ndim data_tmp =? 3)%nat then FileNotFoundError
                 else AssertionError) params (save_file_of params key) fs
  = (<[save_file_of params key := content]> fs, Ok content) ->
  pkl_load content = Ok scaler ->
  ScalerHub_group ndim reshape2 reshape3 fit transform pkl_dump pkl_load
    params loader_type key data_tmp fs
  = (<[save_file_of params key := content]> fs,
     Ok (if (ndim data_tmp =? 3)%nat
         then reshape3 data_tmp (transform scaler (reshape2 data_tmp))
         else transform scaler data_tmp, scaler)).
Proof.
  intros Hfit Hout Hload. rewrite ScalerHub_group_reuse by done. cbv zeta.
  rewrite Hout, Hload. reflexivity.
Qed.

(** X14: in the generic branch of [ScalerHub.__init__], with an assigned
    statistics file that exists, loads, and is none of the three save
    files, the one assigned file is copied to the save files of all three
    groups, and targets, forcings and attributes are all transformed with
    the one scaler loaded from it, for every loader type; nothing is
    fitted. *)
Theorem ScalerHub_generic_assigned_one_scaler (fit : Arr -> Scaler)
    (params : scaler_params) (loader_type f content : string)
    (scaler : Scaler) (target_vars relevant_vars constant_vars : Arr)
    (fs : files) :
  stat_dict_file params = Some f ->
  fs !! f = Some content ->
  pkl_load content = Ok scaler ->
  f <> save_file_of params "target_vars" ->
  f <> save_file_of params "relevant_vars" ->
  f <> save_file_of params "constant_vars" ->
  let norm a := if (ndim a =? 3)%nat
                then reshape3 a (transform scaler (reshape2 a))
                else transform scaler a in
  ScalerHub_generic ndim reshape2 reshape3 fit transform pkl_dump pkl_load
    params loader_type target_vars relevant_vars constant_vars fs
  = (<[save_file_of params "constant_vars" := content]>
       (<[save_file_of params "relevant_vars" := content]>
          (<[save_file_of params "target_vars" := content]> fs)),
     Ok (norm relevant_vars, norm target_vars, norm constant_vars, scaler)).
Proof.
  intros Hsome Hf Hload Hy Hx Hc norm.
  assert (Hfit : fits_here params loader_type = false).
  { apply fits_here_false. right; right. rewrite Hsome. by eexists. }
  assert (Hout : forall absent key (fs' : files),
            fs' !! f = Some content -> f <> save_file_of params key ->
            reuse_outcome absent params (save_file_of params key) fs'
            = (<[save_file_of params key := content]> fs', Ok content)).
  { intros absent key fs' Hf' Hne. unfold reuse_outcome.
    rewrite Hsome, Hf'. by rewrite bool_decide_eq_false_2. }
  unfold ScalerHub_generic. unfold mbind at 1, io_bind.
  rewrite (ScalerHub_group_load _ _ _ _ _ _ content scaler) by auto.
  unfold mbind at 1, io_bind.
  rewrite (ScalerHub_group_load _ _ _ _ _ _ content scaler);
    [| done | apply Hout; [by rewrite lookup_insert_ne|done] | done].
  unfold mbind at 1, io_bind.
  rewrite (ScalerHub_group_load _ _ _ _ _ _ content scaler);
    [| done | apply Hout; [by rewrite !lookup_insert_ne|done] | done].
  reflexivity.
Qed.

(** X15: in the generic branch with no assigned file, train mode fits one
    scaler per group (on the array flattened to two dimensions when it has
    three), saves each to the group's file and keeps the target scaler;
    when the pickle round trips give the scalers back, any other loader
    type over the resulting files transforms its arrays with exactly these
    three training scalers and leaves the files as they are. *)
Theorem ScalerHub_generic_train_then_reuse (fit : Arr -> Scaler)
    (params : scaler_params)
    (target_vars relevant_vars constant_vars : Arr) (fs : files) :
  stat_dict_file params = None ->
  let flat a := if (ndim a =? 3)%nat then reshape2 a else a in
  let norm s a := if (ndim a =? 3)%nat
                  then reshape3 a (transform s (reshape2 a))
                  else transform s a in
  let sy := fit (flat target_vars) in
  let sx := fit (flat relevant_vars) in
  let sc := fit (flat constant_vars) in
  let fs1 :=
    <[save_file_of params "constant_vars" := pkl_dump sc]>
      (<[save_file_of params "relevant_vars" := pkl_dump sx]>
         (<[save_file_of params "target_vars" := pkl_dump sy]> fs)) in
  ScalerHub_generic ndim reshape2 reshape3 fit transform pkl_dump pkl_load
    params "train" target_vars relevant_vars constant_vars fs
  = (fs1, Ok (norm sx relevant_vars, norm sy target_vars,
              norm sc constant_vars, sy))
  /\ (pkl_load (pkl_dump sy) = Ok sy -> pkl_load (pkl_dump sx) = Ok sx ->
      pkl_load (pkl_dump sc) = Ok sc ->
      forall (loader_type : string) (fit' : Arr -> Scaler)
        (target' relevant' constant' : Arr),
        loader_type <> "train"%string ->
        ScalerHub_generic ndim reshape2 reshape3 fit' transform pkl_dump
          pkl_load params loader_type target' relevant' constant' fs1
        = (fs1, Ok (norm sx relevant', norm sy target', norm sc constant',
                    sy))).
Proof.
  intros Hnone flat norm sy sx sc fs1.
  destruct (save_files_distinct params) as (Hyx & Hyc & Hxc).
  split.
  - unfold ScalerHub_generic. unfold mbind at 1, io_bind.
    rewrite ScalerHub_group_fit by (by apply fits_here_train).
    unfold mbind at 1, io_bind.
    rewrite ScalerHub_group_fit by (by apply fits_here_train).
    unfold mbind at 1, io_bind.
    rewrite ScalerHub_group_fit by (by apply fits_here_train).
    reflexivity.
  - intros Hry Hrx Hrc loader_type fit' target' relevant' constant' Hlt.
    assert (Hfit : fits_here params loader_type = false)
      by (by apply fits_here_other).
    assert (Hout : forall absent key content,
              fs1 !! save_file_of params key = Some content ->
              reuse_outcome absent params (save_file_of params key) fs1
              = (<[save_file_of params key := content]> fs1, Ok content)).
    { intros absent key content Hk. unfold reuse_outcome.
      rewrite Hnone, Hk. by rewrite insert_id. }
    assert (Hy : fs1 !! save_file_of params "target_vars" = Some (pkl_dump sy)).
    { unfold fs1. rewrite !lookup_insert_ne by done. apply lookup_insert_eq. }
    assert (Hx : fs1 !! save_file_of params "relevant_vars" = Some (pkl_dump sx)).
    { unfold fs1. rewrite lookup_insert_ne by done. apply lookup_insert_eq. }
    assert (Hc : fs1 !! save_file_of params "constant_vars" = Some (pkl_dump sc)).
    { unfold fs1. apply lookup_insert_eq. }
    unfold ScalerHub_generic. unfold mbind at 1, io_bind.
    rewrite (ScalerHub_group_load _ _ _ _ _ _ (pkl_dump sy) sy) by auto.
    rewrite (insert_id _ _ _ Hy).
    unfold mbind at 1, io_bind.
    rewrite (ScalerHub_group_load _ _ _ _ _ _ (pkl_dump sx) sx) by auto.
    rewrite (insert_id _ _ _ Hx).
    unfold mbind at 1, io_bind.
    rewrite (ScalerHub_group_load _ _ _ _ _ _ (pkl_dump sc) sc) by auto.
    rewrite (insert_id _ _ _ Hc).
    reflexivity.
Qed.

End generic.
End persistence_more.

Section demo_persistence.
Import Persistence Demo.

Lemma DapengScaler_train_then_reuse_witness :
  DapengScaler_init (fun _ : unit => "fresh"%string) (fun s => s) Ok tt
    demo_run "train" demo_files
  = (<["run/dapengscaler_stat.json"%string := "fresh"%string]> demo_files,
     Ok "fresh"%string)
  /\ DapengScaler_init (fun _ : unit => "other"%string) (fun s => s) Ok tt
       demo_run "test"
       (<["run/dapengscaler_stat.json"%string := "fresh"%string]> demo_files)
     = (<["run/dapengscaler_stat.json"%string := "fresh"%string]> demo_files,
        Ok "fresh"%string).
Proof.
  destruct (DapengScaler_train_then_reuse (fun s => s) Ok
              (fun _ : unit => "fresh"%string) tt demo_run demo_files
              eq_refl eq_refl) as [Htrain Htest].
  split; [exact Htrain|].
  apply (Htest "test"%string unit (fun _ : unit => "other"%string) tt).
  discriminate.
Defined.

Lemma ScalerHub_generic_assigned_one_scaler_witness :
  exists fs',
    ScalerHub_generic (fun _ : string => 3%nat) (fun a => a) (fun _ a => a)
      (fun a => a) (fun s a => s +:+ a) (fun s => s) Ok
      demo_run_assigned "test" "y" "x" "c" demo_files
    = (fs', Ok ("assignedx", "assignedy", "assignedc", "assigned")%string).
Proof.
  eexists.
  apply (ScalerHub_generic_assigned_one_scaler (fun _ : string => 3%nat)
           (fun a => a) (fun _ a => a) (fun s a => s +:+ a) (fun s => s) Ok
           (fun a => a) demo_run_assigned "test" "pub/stat.json" "assigned"
           "assigned" "y" "x" "c" demo_files);
    [reflexivity | reflexivity | reflexivity
    | discriminate | discriminate | discriminate].
Defined.

Lemma ScalerHub_generic_train_then_reuse_witness :
  exists fs1,
    ScalerHub_generic (fun _ : string => 3%nat) (fun a => a) (fun _ a => a)
      (fun a => a) (fun s a => s +:+ a) (fun s => s) Ok
      demo_run "train" "y" "x" "c" demo_files
    = (fs1, Ok ("xx", "yy", "cc", "y")%string)
    /\ ScalerHub_generic (fun _ : string => 3%nat) (fun a => a) (fun _ a => a)
         (fun _ => "refit"%string) (fun s a => s +:+ a) (fun s => s) Ok
         demo_run "test" "q" "p" "r" fs1
       = (fs1, Ok ("xp", "yq", "cr", "y")%string).
Proof.
  destruct (ScalerHub_generic_train_then_reuse (fun _ : string => 3%nat)
              (fun a => a) (fun _ a => a) (fun s a => s +:+ a) (fun s => s) Ok
              (fun a => a) demo_run "y" "x" "c" demo_files eq_refl)
    as [Htrain Htest].
  eexists. split; [exact Htrain|].
  apply (Htest eq_refl eq_refl eq_refl "test"%string (fun _ => "refit"%string)
           "q" "p" "r")%string.
  discriminate.
Defined.

End demo_persistence.

(** ** Gap filling: [kill_nan] and the policy ["mean"] *)

Section gap_filler.
Import Normalization GapFiller.

Lemma finite_count_zero (f : nat -> fval) (n : nat) :
  finite_count f n = 0%nat <-> forall i, (i < n)%nat -> f i = NaN.
Proof.
  induction n as [|n IH]; cbn.
  - split; [intros _ i Hi; lia|done].
  - destruct (f n) eqn:Hn.
    + rewrite IH. split.
      * intros H i Hi. destruct (decide (i = n)) as [->|]; [done|].
        apply H. lia.
      * intros H i Hi. apply H. lia.
    + split; [discriminate|]. intros H. specialize (H n ltac:(lia)). congruence.
Qed.

Lemma finite_sum_ext (f g : nat -> fval) (n : nat) :
  (forall i, (i < n)%nat -> f i = g i) ->
  finite_sum f n = finite_sum g n /\ finite_count f n = finite_count g n.
Proof.
  induction n as [|n IH]; intros H; [done|]. cbn.
  rewrite <- (H n) by lia. destruct IH as [-> ->]; [intros; apply H; lia|].
  by destruct (f n).
Qed.

Lemma nanmean_ext (f g : nat -> fval) (n : nat) :
  (forall i, (i < n)%nat -> f i = g i) -> nanmean f n = nanmean g n.
Proof.
  intros H. unfold nanmean. by destruct (finite_sum_ext f g n H) as [-> ->].
Qed.

Lemma nanmean_NaN (f : nat -> fval) (n : nat) :
  nanmean f n = NaN <-> forall i, (i < n)%nat -> f i = NaN.
Proof.
  unfold nanmean. rewrite <- finite_count_zero.
  destruct (Nat.eqb_spec (finite_count f n) 0); split; done.
Qed.

Lemma fillna_NaN (x m : fval) : fillna x m = NaN <-> x = NaN /\ m = NaN.
Proof. destruct x; cbn; split; (done || by intros [? ?]). Qed.

(** The loop over the variables, round by round. *)
Lemma fill_mean2_rounds (vs : list nat) (da : DataArray2 fval) :
  NoDup vs ->
  let da' := foldl fill_mean_variable2 da vs in
  c_variable da' = c_variable da /\ c_basin da' = c_basin da
  /\ forall v i,
       c_values da' v i
       = if bool_decide (v ∈ vs)
         then fillna (c_values da v i)
                (nanmean (c_values da v) (length (c_basin da)))
         else c_values da v i.
Proof.
  revert da. induction vs as [|v0 vs IH]; intros da Hnd; cbn.
  - repeat split; done.
  - apply NoDup_cons in Hnd as [Hv0 Hnd].
    destruct (IH (fill_mean_variable2 da v0) Hnd) as (Hvar & Hbasin & Hval).
    cbn in Hvar, Hbasin. split; [done|]. split; [done|].
    intros v i. rewrite Hval. cbn.
    destruct (Nat.eqb_spec v v0) as [->|Hne].
    + rewrite bool_decide_eq_false_2 by done.
      rewrite bool_decide_eq_true_2 by left. done.
    + destruct (decide (v ∈ vs)) as [Hin|Hin].
      * rewrite !bool_decide_eq_true_2 by (done || by right).
        first [ done
              | f_equal; apply nanmean_ext; intros i' _;
                by destruct (Nat.eqb_spec v v0) ].
      * rewrite !bool_decide_eq_false_2; [done| |done].
        intros [?|?]%elem_of_cons; done.
Qed.

Lemma fill_mean2_values (da : DataArray2 fval) :
  c_variable (fill_mean2 da) = c_variable da
  /\ c_basin (fill_mean2 da) = c_basin da
  /\ forall v i, (v < length (c_variable da))%nat ->
       c_values (fill_mean2 da) v i
       = fillna (c_values da v i)
           (nanmean (c_values da v) (length (c_basin da))).
Proof.
  destruct (fill_mean2_rounds (seq 0 (length (c_variable da))) da
              (NoDup_seq _ _)) as (Hvar & Hbasin & Hval).
  split; [done|]. split; [done|]. intros v i Hv. unfold fill_mean2.
  rewrite Hval. rewrite bool_decide_eq_true_2; [done|].
  apply elem_of_seq. lia.
Qed.

Lemma fill_mean3_rounds (vs : list nat) (da : DataArray3 fval) :
  NoDup vs ->
  let da' := foldl fill_mean_variable3 da vs in
  da_variable da' = da_variable da /\ da_basin da' = da_basin da
  /\ da_time da' = da_time da
  /\ forall v i j,
       da_values da' v i j
       = if bool_decide (v ∈ vs)
         then fillna (da_values da v i j)
                (nanmean (fun i' => da_values da v i' j) (length (da_basin da)))
         else da_values da v i j.
Proof.
  revert da. induction vs as [|v0 vs IH]; intros da Hnd; cbn.
  - repeat split; done.
  - apply NoDup_cons in Hnd as [Hv0 Hnd].
    destruct (IH (fill_mean_variable3 da v0) Hnd)
      as (Hvar & Hbasin & Htime & Hval).
    cbn in Hvar, Hbasin, Htime. split; [done|]. split; [done|]. split; [done|].
    intros v i j. rewrite Hval. cbn.
    destruct (Nat.eqb_spec v v0) as [->|Hne].
    + rewrite bool_decide_eq_false_2 by done.
      rewrite bool_decide_eq_true_2 by left. done.
    + destruct (decide (v ∈ vs)) as [Hin|Hin].
      * rewrite !bool_decide_eq_true_2 by (done || by right).
        first [ done
              | f_equal; apply nanmean_ext; intros i' _;
                by destruct (Nat.eqb_spec v v0) ].
      * rewrite !bool_decide_eq_false_2; [done| |done].
        intros [?|?]%elem_of_cons; done.
Qed.

Section kill_nan.
Variable et_ssm_ignore3 : DataArray3 fval -> result (DataArray3 fval).
Variable interpolate3 : DataArray3 fval -> result (DataArray3 fval).
Variable et_ssm_ignore2 : DataArray2 fval -> result (DataArray2 fval).
Variable interpolate2 : DataArray2 fval -> result (DataArray2 fval).

(** X16: when [kill_nan] returns, an array whose flag is off is returned
    as it was and an absent array stays absent; with [constant_rm_nan] the
    attributes keep their coordinates, every finite value is unchanged,
    every missing value is replaced by the mean of the attribute over the
    basins that have one, and a value is still missing afterwards exactly
    when the attribute is missing for every basin. *)
Theorem kill_nan_attributes (flags : rm_nan)
    (x y x' y' : option (DataArray3 fval)) (c c' : option (DataArray2 fval)) :
  kill_nan et_ssm_ignore3 interpolate3 et_ssm_ignore2 interpolate2
    flags x c y = Ok (x', y', c') ->
  (relevant_rm_nan flags = false -> x' = x)
  /\ (target_rm_nan flags = false -> y' = y)
  /\ (constant_rm_nan flags = false -> c' = c)
  /\ (x = None -> x' = None) /\ (y = None -> y' = None)
  /\ (c = None -> c' = None)
  /\ (constant_rm_nan flags = true ->
      forall ca, c = Some ca ->
      exists ca', c' = Some ca'
        /\ c_variable ca' = c_variable ca /\ c_basin ca' = c_basin ca
        /\ forall v i : nat,
             (v < length (c_variable ca))%nat ->
             (i < length (c_basin ca))%nat ->
             (forall r, c_values ca v i = Fin r -> c_values ca' v i = Fin r)
             /\ (c_values ca v i = NaN ->
                 c_values ca' v i
                 = nanmean (c_values ca v) (length (c_basin ca)))
             /\ (c_values ca' v i = NaN <->
                 forall i', (i' < length (c_basin ca))%nat ->
                            c_values ca v i' = NaN)).
Proof.
  unfold kill_nan, fill_gaps_da3, fill_gaps_da2, fill_gaps_da.
  rewrite !(bool_decide_eq_false_2 ("interpolate" = "et_ssm_ignore")%string)
    by done.
  rewrite !(bool_decide_eq_false_2 ("interpolate" = "mean")%string) by done.
  rewrite !(bool_decide_eq_true_2 ("interpolate" = "interpolate")%string)
    by done.
  rewrite (bool_decide_eq_false_2 ("mean" = "et_ssm_ignore")%string) by done.
  rewrite (bool_decide_eq_true_2 ("mean" = "mean")%string) by done.
  intros H.
  destruct (relevant_rm_nan flags), (target_rm_nan flags),
    (constant_rm_nan flags), x as [xa|], y as [ya|], c as [ca|];
    cbn in H;
    repeat match type of H with
           | context [interpolate3 ?a] =>
               destruct (interpolate3 a); cbn in H; try discriminate
           end;
    injection H as <- <- <-;
    repeat split; try done; try discriminate.
  all: intros _ ca0 [= <-]; exists (fill_mean2 ca);
    destruct (fill_mean2_values ca) as (Hvar & Hbasin & Hval);
    (split; [done|]); (split; [done|]); (split; [done|]);
    intros v i Hv Hi; rewrite (Hval v i Hv);
    (split; [by intros r ->|]); (split; [by intros ->|]);
    rewrite fillna_NaN, nanmean_NaN;
    (split; [by intros [_ ?]|]); intros Hall; (split; [by apply Hall|done]).
Qed.

End kill_nan.

Lemma kill_nan_attributes_witness :
  exists ca',
    kill_nan Ok Ok Ok Ok DemoGaps.demo_flags None (Some DemoGaps.demo_attr) None
    = Ok (None, None, Some ca')
    /\ c_values ca' 0%nat 0%nat = Fin 2
    /\ c_values ca' 0%nat 1%nat = Fin 3.
Proof.
  exists (fill_mean2 DemoGaps.demo_attr).
  assert (H : kill_nan Ok Ok Ok Ok DemoGaps.demo_flags None
                (Some DemoGaps.demo_attr) None
              = Ok (None, None, Some (fill_mean2 DemoGaps.demo_attr)))
    by reflexivity.
  split; [exact H|].
  destruct (kill_nan_attributes Ok Ok Ok Ok _ _ _ _ _ _ _ H)
    as (_ & _ & _ & _ & _ & _ & Hc).
  destruct (Hc eq_refl _ eq_refl) as (ca' & [= <-] & _ & _ & Hval).
  split.
  - destruct (Hval 0%nat 0%nat) as (Hfin & _); [cbn; lia..|].
    by apply Hfin.
  - destruct (Hval 0%nat 1%nat) as (_ & Hnan & _); [cbn; lia..|].
    rewrite Hnan by reflexivity.
    unfold nanmean. cbn. f_equal. lra.
Defined.

(** X17: filling with the policy ["mean"] is idempotent: a second pass
    changes no value.  For an array with a time dimension the mean is
    taken over the basins at each time: a value is replaced by the mean of
    the finite values of its variable at its time, and is still missing
    exactly when the variable is missing for every basin at that time. *)
Theorem fill_mean_idempotent :
  (forall (da : DataArray2 fval) (v i : nat),
     (v < length (c_variable da))%nat -> (i < length (c_basin da))%nat ->
     c_values (fill_mean2 (fill_mean2 da)) v i = c_values (fill_mean2 da) v i)
  /\ (forall (da : DataArray3 fval) (v i j : nat),
        (v < length (da_variable da))%nat -> (i < length (da_basin da))%nat ->
        let da' := fill_mean3 da in
        da_values da' v i j
        = fillna (da_values da v i j)
            (nanmean (fun i' => da_values da v i' j) (length (da_basin da)))
        /\ (da_values da' v i j = NaN <->
            forall i', (i' < length (da_basin da))%nat ->
                       da_values da v i' j = NaN)
        /\ da_values (fill_mean3 da') v i j = da_values da' v i j).
Proof.
  split.
  - intros da v i Hv Hi.
    destruct (fill_mean2_values da) as (Hvar & Hbasin & Hval).
    destruct (fill_mean2_values (fill_mean2 da)) as (_ & _ & Hval2).
    rewrite Hval2 by (by rewrite Hvar). rewrite Hbasin.
    destruct (c_values (fill_mean2 da) v i) eqn:E; [|done]. cbn.
    apply nanmean_NaN. intros i' Hi'.
    rewrite Hval in E |- * by done.
    apply fillna_NaN in E as [_ E]. rewrite E.
    apply fillna_NaN. split; [|done].
    by apply (proj1 (nanmean_NaN _ _) E).
  - intros da v i j Hv Hi da'.
    assert (Hval : forall (d : DataArray3 fval) v i j,
              (v < length (da_variable d))%nat ->
              da_values (fill_mean3 d) v i j
              = fillna (da_values d v i j)
                  (nanmean (fun i' => da_values d v i' j)
                     (length (da_basin d)))).
    { intros d v0 i0 j0 Hv0.
      destruct (fill_mean3_rounds (seq 0 (length (da_variable d))) d
                  (NoDup_seq _ _)) as (_ & _ & _ & H).
      unfold fill_mean3. rewrite H. rewrite bool_decide_eq_true_2; [done|].
      apply elem_of_seq. lia. }
    assert (Hcoord : da_variable da' = da_variable da
                     /\ da_basin da' = da_basin da).
    { destruct (fill_mean3_rounds (seq 0 (length (da_variable da))) da
                  (NoDup_seq _ _)) as (? & ? & _). done. }
    destruct Hcoord as [Hvar Hbasin].
    split; [by apply Hval|]. split.
    + unfold da'. rewrite Hval by done. rewrite fillna_NaN, nanmean_NaN.
      split; [by intros [_ ?]|]. intros Hall. split; [by apply Hall|done].
    + rewrite Hval by (by rewrite Hvar). rewrite Hbasin.
      destruct (da_values da' v i j) eqn:E; [|done]. cbn.
      apply nanmean_NaN. intros i' Hi'.
      unfold da' in E |- *. rewrite Hval in E |- * by done.
      apply fillna_NaN in E as [_ E]. rewrite E.
      apply fillna_NaN. split; [|done].
      by apply (proj1 (nanmean_NaN _ _) E).
Qed.

End gap_filler.

(** ** [cal_stat_all]: keys and precedence of the groups *)

Section statistics.
Import Arrays Normalization Statistics.
Context {Stat : Type}.
Variable cal_stat_prcp_norm : ndarray2 fval -> (nat -> fval) -> Stat.
Variable cal_stat_gamma : ndarray2 fval -> Stat.
Variable cal_stat : ndarray -> Stat.

Lemma stat_loop_Ok (body : string -> result Stat) (cols : list string)
    (sd sd' : gmap string Stat) :
  stat_loop body cols sd = Ok sd' ->
  (forall var, var ∈ cols -> exists s, body var = Ok s)
  /\ forall var,
       sd' !! var = if bool_decide (var ∈ cols)
                    then match body var with Ok s => Some s | Raise _ => None end
                    else sd !! var.
Proof.
  revert sd. induction cols as [|col cols IH]; intros sd; cbn.
  - intros [= <-]. split; [by intros var ?%elem_of_nil|].
    intros var. by rewrite bool_decide_eq_false_2
      by (by intros ?%elem_of_nil).
  - destruct (body col) as [s|e] eqn:Hcol; cbn; [|discriminate].
    intros (Hall & Hval)%IH. split.
    + intros var [->|Hin]%elem_of_cons; [by eexists|by apply Hall].
    + intros var. rewrite Hval.
      destruct (decide (var ∈ cols)) as [Hin|Hin].
      * by rewrite !bool_decide_eq_true_2 by (done || by right).
      * rewrite (bool_decide_eq_false_2 (var ∈ cols)) by done.
        destruct (decide (var = col)) as [->|Hne].
        -- rewrite bool_decide_eq_true_2 by left.
           by rewrite lookup_insert_eq, Hcol.
        -- rewrite lookup_insert_ne by done.
           rewrite bool_decide_eq_false_2; [done|].
           by intros [?|?]%elem_of_cons.
Qed.

Lemma stat_loop_Raise (body : string -> result Stat) (cols : list string)
    (sd : gmap string Stat) :
  (forall var, var ∈ cols -> exists s, body var = Ok s) ->
  exists sd', stat_loop body cols sd = Ok sd'.
Proof.
  revert sd. induction cols as [|col cols IH]; intros sd Hall; cbn.
  - by eexists.
  - destruct (Hall col) as [s ->]; [left|]. cbn.
    apply IH. intros var Hin. apply Hall. by right.
Qed.

Lemma sel_variable3_is_Ok (da : DataArray3 fval) (var : string) :
  (exists a, sel_variable3 da var = Ok a) <-> var ∈ da_variable da.
Proof.
  unfold sel_variable3. split.
  - intros [a Ha].
    destruct (index_of var (da_variable da)) as [v|e] eqn:Hv; [|discriminate].
    apply index_of_Ok in Hv. by eapply list_elem_of_lookup_2.
  - intros Hin. destruct (index_of_elem _ _ Hin) as (v & -> & _). by eexists.
Qed.

Lemma sel_variable2_is_Ok (da : DataArray2 fval) (var : string) :
  (exists a, sel_variable2 da var = Ok a) <-> var ∈ c_variable da.
Proof.
  unfold sel_variable2. split.
  - intros [a Ha].
    destruct (index_of var (c_variable da)) as [v|e] eqn:Hv; [|discriminate].
    apply index_of_Ok in Hv. by eapply list_elem_of_lookup_2.
  - intros Hin. destruct (index_of_elem _ _ Hin) as (v & -> & _). by eexists.
Qed.

Lemma target_stat_is_Ok (self : scaler_data) (var : string) :
  (exists s, target_stat cal_stat_prcp_norm cal_stat_gamma cal_stat self var
             = Ok s)
  <-> var ∈ da_variable (data_target self).
Proof.
  rewrite <- (sel_variable3_is_Ok (data_target self) var). unfold target_stat.
  destruct (bool_decide (var ∈ prcp_norm_cols self));
    [|destruct (bool_decide (var ∈ gamma_norm_cols self))];
    destruct (sel_variable3 (data_target self) var) as [a|e]; cbn;
    split; intros [s Hs]; first [discriminate | by eexists].
Qed.

Lemma forcing_stat_is_Ok (self : scaler_data) (var : string) :
  (exists s, forcing_stat cal_stat_gamma cal_stat self var = Ok s)
  <-> var ∈ da_variable (data_forcing self).
Proof.
  rewrite <- (sel_variable3_is_Ok (data_forcing self) var). unfold forcing_stat.
  destruct (bool_decide (var ∈ gamma_norm_cols self));
    destruct (sel_variable3 (data_forcing self) var) as [a|e]; cbn;
    split; intros [s Hs]; first [discriminate | by eexists].
Qed.

Lemma attr_stat_is_Ok (self : scaler_data) (var : string) :
  (exists s, attr_stat cal_stat self var = Ok s)
  <-> var ∈ c_variable (data_attr self).
Proof.
  rewrite <- (sel_variable2_is_Ok (data_attr self) var). unfold attr_stat.
  destruct (sel_variable2 (data_attr self) var) as [a|e]; cbn;
    split; intros [s Hs]; first [discriminate | by eexists].
Qed.

Lemma cal_stat_all_lookups (self : scaler_data) :
  let run := cal_stat_all cal_stat_prcp_norm cal_stat_gamma cal_stat self in
  ((exists sd, run = Ok sd) <->
   (forall var, var ∈ target_cols self -> var ∈ da_variable (data_target self))
   /\ (forall var, var ∈ relevant_cols self ->
                   var ∈ da_variable (data_forcing self))
   /\ (forall var, var ∈ constant_cols self ->
                   var ∈ c_variable (data_attr self)))
  /\ (forall e, run = Raise e -> e = KeyError)
  /\ (forall sd, run = Ok sd ->
        (forall var,
           is_Some (sd !! var)
           <-> var ∈ target_cols self ++ relevant_cols self
                     ++ constant_cols self)
        /\ forall var,
             (var ∈ constant_cols self ->
              Ok <$> sd !! var
              = Some ((fun a => cal_stat (Nd1 a))
                        <$> sel_variable2 (data_attr self) var))
             /\ (var ∉ constant_cols self -> var ∈ relevant_cols self ->
                 Ok <$> sd !! var
                 = Some ((fun a => if bool_decide (var ∈ gamma_norm_cols self)
                                   then cal_stat_gamma a else cal_stat (Nd2 a))
                           <$> sel_variable3 (data_forcing self) var))
             /\ (var ∉ constant_cols self -> var ∉ relevant_cols self ->
                 var ∈ target_cols self ->
                 Ok <$> sd !! var
                 = Some ((fun a =>
                            if bool_decide (var ∈ prcp_norm_cols self)
                            then cal_stat_prcp_norm a (mean_prep self)
                            else if bool_decide (var ∈ gamma_norm_cols self)
                                 then cal_stat_gamma a else cal_stat (Nd2 a))
                           <$> sel_variable3 (data_target self) var))).
Proof.
  intros run. subst run. unfold cal_stat_all.
  set (tb := target_stat cal_stat_prcp_norm cal_stat_gamma cal_stat self).
  set (fb := forcing_stat cal_stat_gamma cal_stat self).
  set (ab := attr_stat cal_stat self).
  split; [|split].
  - split.
    + intros [sd Hrun].
      destruct (stat_loop tb (target_cols self) ∅) as [sd1|e] eqn:H1;
        cbn in Hrun; [|discriminate].
      destruct (stat_loop fb (relevant_cols self) sd1) as [sd2|e] eqn:H2;
        cbn in Hrun; [|discriminate].
      apply stat_loop_Ok in H1 as (H1 & _), H2 as (H2 & _),
        Hrun as (H3 & _).
      split; [|split]; intros var Hin.
      * by apply target_stat_is_Ok, H1.
      * by apply forcing_stat_is_Ok, H2.
      * by apply attr_stat_is_Ok, H3.
    + intros (H1 & H2 & H3).
      destruct (stat_loop_Raise tb (target_cols self) ∅) as [sd1 ->].
      { intros var Hin. by apply target_stat_is_Ok, H1. }
      cbn.
      destruct (stat_loop_Raise fb (relevant_cols self) sd1) as [sd2 ->].
      { intros var Hin. by apply forcing_stat_is_Ok, H2. }
      cbn. apply stat_loop_Raise.
      intros var Hin. by apply attr_stat_is_Ok, H3.
  - assert (Hbody : forall (body : string -> result Stat) cols sd e,
              (forall var e', body var = Raise e' -> e' = KeyError) ->
              stat_loop body cols sd = Raise e -> e = KeyError).
    { intros body cols. induction cols as [|col cols IH]; intros sd e Hb; cbn;
        [discriminate|].
      destruct (body col) as [s|e'] eqn:Hcol; cbn; [by apply IH|].
      intros [= <-]. by eapply Hb. }
    assert (Hsel3 : forall da var e', sel_variable3 da var = Raise e' ->
                                      e' = KeyError).
    { intros da var e'. unfold sel_variable3, index_of.
      destruct (list_find _ _) as [[? ?]|]; cbn; [discriminate|].
      by intros [= <-]. }
    assert (Hsel2 : forall da var e', sel_variable2 da var = Raise e' ->
                                      e' = KeyError).
    { intros da var e'. unfold sel_variable2, index_of.
      destruct (list_find _ _) as [[? ?]|]; cbn; [discriminate|].
      by intros [= <-]. }
    intros e.
    destruct (stat_loop tb (target_cols self) ∅) as [sd1|e1] eqn:H1; cbn.
    + destruct (stat_loop fb (relevant_cols self) sd1) as [sd2|e2] eqn:H2; cbn.
      * apply Hbody. intros var e'. unfold ab, attr_stat.
        destruct (sel_variable2 _ _) eqn:E; cbn; [discriminate|].
        intros [= <-]. by eapply Hsel2.
      * intros [= <-]. eapply Hbody; [|exact H2].
        intros var e'. unfold fb, forcing_stat.
        case_bool_decide; destruct (sel_variable3 _ _) eqn:E; cbn;
          try discriminate; intros [= <-]; by eapply Hsel3.
    + intros [= <-]. eapply Hbody; [|exact H1].
      intros var e'. unfold tb, target_stat.
      repeat case_bool_decide; destruct (sel_variable3 _ _) eqn:E; cbn;
        try discriminate; intros [= <-]; by eapply Hsel3.
  - intros sd Hrun.
    destruct (stat_loop tb (target_cols self) ∅) as [sd1|e] eqn:H1;
      cbn in Hrun; [|discriminate].
    destruct (stat_loop fb (relevant_cols self) sd1) as [sd2|e] eqn:H2;
      cbn in Hrun; [|discriminate].
    apply stat_loop_Ok in H1 as (H1 & V1), H2 as (H2 & V2),
      Hrun as (H3 & V3).
    split.
    + intros var. rewrite !elem_of_app, V3, V2, V1, lookup_empty.
      destruct (decide (var ∈ constant_cols self)) as [Hc|Hc].
      { rewrite bool_decide_eq_true_2 by done.
        destruct (H3 var Hc) as [s ->]. split; [tauto|by eexists]. }
      rewrite bool_decide_eq_false_2 by done.
      destruct (decide (var ∈ relevant_cols self)) as [Hr|Hr].
      { rewrite bool_decide_eq_true_2 by done.
        destruct (H2 var Hr) as [s ->]. split; [tauto|by eexists]. }
      rewrite bool_decide_eq_false_2 by done.
      destruct (decide (var ∈ target_cols self)) as [Ht|Ht].
      { rewrite bool_decide_eq_true_2 by done.
        destruct (H1 var Ht) as [s ->]. split; [tauto|by eexists]. }
      rewrite bool_decide_eq_false_2 by done.
      split; [by intros [? ?]|tauto].
    + intros var. split; [|split].
      * intros Hin. rewrite V3, bool_decide_eq_true_2 by done.
        destruct (H3 var Hin) as [s Hs]. rewrite Hs. unfold ab, attr_stat in Hs.
        destruct (sel_variable2 (data_attr self) var); cbn in *; congruence.
      * intros Hnc Hin. rewrite V3, bool_decide_eq_false_2 by done.
        rewrite V2, bool_decide_eq_true_2 by done.
        destruct (H2 var Hin) as [s Hs]. rewrite Hs.
        unfold fb, forcing_stat in Hs.
        destruct (bool_decide (var ∈ gamma_norm_cols self));
          destruct (sel_variable3 (data_forcing self) var); cbn in *; congruence.
      * intros Hnc Hnr Hin. rewrite V3, bool_decide_eq_false_2 by done.
        rewrite V2, bool_decide_eq_false_2 by done.
        rewrite V1, bool_decide_eq_true_2 by done.
        destruct (H1 var Hin) as [s Hs]. rewrite Hs.
        unfold tb, target_stat in Hs.
        destruct (bool_decide (var ∈ prcp_norm_cols self));
          [|destruct (bool_decide (var ∈ gamma_norm_cols self))];
          destruct (sel_variable3 (data_target self) var); cbn in *;
          unfold mret, result_ret in *; congruence.
Qed.

Lemma lookup_computed {B : Type} (o : option Stat) (f : B -> Stat)
    (r : result B) :
  Ok <$> o = Some (f <$> r) -> exists a, r = Ok a /\ o = Some (f a).
Proof.
  destruct o as [s|], r as [a|e]; cbn; try discriminate.
  intros [= ->]. by exists a.
Qed.

(** X18: [cal_stat_all] succeeds exactly when every listed target, forcing
    and attribute column is a variable of its array, and raises nothing but
    [KeyError].  The dictionary's keys are exactly the listed columns.  A
    name listed in several groups keeps the statistic of the last group
    that lists it: attributes over forcings over targets.  A forcing in
    [gamma_norm_cols] gets the gamma statistic and any other forcing the
    plain one; for a target, [prcp_norm_cols] is tested first, then
    [gamma_norm_cols].  (The statistic functions and [read_mean_prcp] are
    taken as total.) *)
Theorem cal_stat_all_entries (self : scaler_data) :
  let run := cal_stat_all cal_stat_prcp_norm cal_stat_gamma cal_stat self in
  ((exists sd, run = Ok sd) <->
   (forall var, var ∈ target_cols self -> var ∈ da_variable (data_target self))
   /\ (forall var, var ∈ relevant_cols self ->
                   var ∈ da_variable (data_forcing self))
   /\ (forall var, var ∈ constant_cols self ->
                   var ∈ c_variable (data_attr self)))
  /\ (forall e, run = Raise e -> e = KeyError)
  /\ (forall sd, run = Ok sd ->
        (forall var,
           is_Some (sd !! var)
           <-> var ∈ target_cols self ++ relevant_cols self
                     ++ constant_cols self)
        /\ forall var,
             (var ∈ constant_cols self ->
              exists a, sel_variable2 (data_attr self) var = Ok a
                /\ sd !! var = Some (cal_stat (Nd1 a)))
             /\ (var ∉ constant_cols self -> var ∈ relevant_cols self ->
                 exists a, sel_variable3 (data_forcing self) var = Ok a
                   /\ sd !! var
                      = Some (if bool_decide (var ∈ gamma_norm_cols self)
                              then cal_stat_gamma a else cal_stat (Nd2 a)))
             /\ (var ∉ constant_cols self -> var ∉ relevant_cols self ->
                 var ∈ target_cols self ->
                 exists a, sel_variable3 (data_target self) var = Ok a
                   /\ sd !! var
                      = Some (if bool_decide (var ∈ prcp_norm_cols self)
                              then cal_stat_prcp_norm a (mean_prep self)
                              else if bool_decide (var ∈ gamma_norm_cols self)
                                   then cal_stat_gamma a
                                   else cal_stat (Nd2 a)))).
Proof.
  intros run. destruct (cal_stat_all_lookups self) as (Hok & Herr & Hval).
  split; [exact Hok|]. split; [exact Herr|].
  intros sd Hsd. destruct (Hval sd Hsd) as [Hkeys Hlook].
  split; [exact Hkeys|]. intros var.
  destruct (Hlook var) as (Ha & Hf & Ht). split; [|split].
  - intros Hin. by apply lookup_computed, Ha.
  - intros Hnc Hin. by apply lookup_computed, Hf.
  - intros Hnc Hnr Hin. by apply lookup_computed, Ht.
Qed.

End statistics.
